(** * Bitbucket Server collector helpers: a shallow embedding

    The Go file of package [tasks] that holds the shared helpers of the
    Bitbucket Server collectors (query builders, response decoders, seed
    iterators, status classification) is embedded function by function.
    Go values keep their shape: [int] is a 64-bit signed integer carried by
    [Z] with its wrap-around written out, [url.Values] is a finite map from
    keys to lists of values, a function returning [(T, errors.Error)] returns
    a pair whose second component is [option Error], and a run-time panic is
    an explicit outcome. *)

From Stdlib Require Import ZArith String Ascii List Lia DecimalString.
From Stdlib Require DecimalZ.
From stdpp Require Import gmap strings list.

Local Open Scope string_scope.
Local Open Scope Z_scope.

(** ** Outcomes, integers, errors *)

(** A Go call either returns or panics. *)
Inductive Outcome (A : Type) : Type :=
| Returns (a : A)
| Panics (msg : string).
Arguments Returns {A} a.
Arguments Panics {A} msg.

Definition obind {A B} (o : Outcome A) (k : A -> Outcome B) : Outcome B :=
  match o with
  | Returns a => k a
  | Panics m => Panics m
  end.

Module GoInt.
(** Go's [int] on a 64-bit platform. *)
Definition min_int : Z := - 2 ^ 63.
Definition max_int : Z := 2 ^ 63 - 1.
Definition in_range (z : Z) : Prop := min_int <= z <= max_int.
Definition wrap (z : Z) : Z := (z + 2 ^ 63) mod 2 ^ 64 - 2 ^ 63.

(** [fmt.Sprintf("%v", n)] for an integer [n]: its decimal numeral. *)
Definition Sprint (n : Z) : string := NilZero.string_of_int (Z.to_int n).
End GoInt.

(** A plain Go [error] (from [io], [encoding/json], [net/url]) is carried by
    its message. *)
Definition GoError : Type := string.

Inductive ErrorType : Type := Default | Unauthorized.

(** Modelled from the spec: package [errors] and the two sentinel values
    [api.ErrFinishCollect] and [api.ErrIgnoreAndContinue] are declared
    outside the embedded file.  An [errors.Error] is either a plain Go error
    seen as one (what [errors.Convert] gives, and what [T.Wrap] keeps as its
    cause), an error created by [T.New], an error created by [T.Wrap], or one
    of the two package-level sentinels, which callers recognise by identity:
    the end-of-collection signal and the ignore-and-continue signal. *)
Inductive Error : Type :=
| Converted (cause : GoError)
| New (t : ErrorType) (msg : string)
| Wrap (t : ErrorType) (cause : Error) (msg : string)
| ErrFinishCollect
| ErrIgnoreAndContinue.

(** [errors.Convert]: nil stays nil. *)
Definition Convert (e : option GoError) : option Error := Converted <$> e.

(** The two signals the engine consumes without failing the run. *)
Definition is_signal (e : Error) : bool :=
  match e with
  | ErrFinishCollect | ErrIgnoreAndContinue => true
  | _ => false
  end.

(** The error type an error was created with, when it has one. *)
Definition type_of (e : Error) : option ErrorType :=
  match e with
  | New t _ | Wrap t _ _ => Some t
  | _ => None
  end.

(** The message an error was created with. *)
Definition message_of (e : Error) : string :=
  match e with
  | Converted m => m
  | New _ m => m
  | Wrap _ _ m => m
  | ErrFinishCollect => "finish collect"
  | ErrIgnoreAndContinue => "ignore and continue"
  end.

(** [part] occurs inside [s]. *)
Definition carries (s part : string) : Prop :=
  exists pre post : string, s = pre +:+ part +:+ post.

(** ** Time *)

(** A [time.Time]: an instant (seconds and nanoseconds since the Unix epoch)
    and the offset, in seconds east of UTC, of the zone it is presented in. *)
Record Time : Type := mkTime {
  unix_sec : Z;
  nsec : Z;
  zone_offset : Z
}.

Module time.
(** [appendInt(b, x, width)]: decimal, zero-padded to [width], sign first. *)
Fixpoint zeros (n : nat) : string :=
  match n with O => "" | S k => "0" +:+ zeros k end.

Definition pad (width : nat) (x : Z) : string :=
  let digits := GoInt.Sprint (Z.abs x) in
  let body := zeros (width - String.length digits) +:+ digits in
  if x <? 0 then "-" +:+ body else body.

(** Civil date of a day count since 1970-01-01 (proleptic Gregorian). *)
Definition civil (days : Z) : Z * Z * Z :=
  let z := days + 719468 in
  let era := z / 146097 in
  let doe := z - era * 146097 in
  let yoe := (doe - doe / 1460 + doe / 36524 - doe / 146096) / 365 in
  let doy := doe - (365 * yoe + yoe / 4 - yoe / 100) in
  let mp := (5 * doy + 2) / 153 in
  let d := doy - (153 * mp + 2) / 5 + 1 in
  let m := if mp <? 10 then mp + 3 else mp - 9 in
  let y := yoe + era * 400 + (if m <=? 2 then 1 else 0) in
  (y, m, d).

(** The zone suffix of layout element [Z07:00]. *)
Definition zone_suffix (offset : Z) : string :=
  if offset =? 0 then "Z"
  else
    let zone := Z.quot offset 60 in
    let sign := if zone <? 0 then "-" else "+" in
    let zone := Z.abs zone in
    sign +:+ pad 2 (Z.quot zone 60) +:+ ":" +:+ pad 2 (Z.rem zone 60).

(** [t.Format(time.RFC3339)], layout [2006-01-02T15:04:05Z07:00]. *)
Definition Format_RFC3339 (t : Time) : string :=
  let abs := unix_sec t + zone_offset t in
  let '(y, m, d) := civil (abs / 86400) in
  let sod := abs mod 86400 in
  pad 4 y +:+ "-" +:+ pad 2 m +:+ "-" +:+ pad 2 d +:+ "T" +:+
  pad 2 (sod / 3600) +:+ ":" +:+ pad 2 (sod mod 3600 / 60) +:+ ":" +:+
  pad 2 (sod mod 60) +:+ zone_suffix (zone_offset t).

(** [t.After(u)] on instants. *)
Definition After (t u : Time) : bool :=
  (unix_sec u <? unix_sec t)
  || ((unix_sec u =? unix_sec t) && (nsec u <? nsec t)).
End time.

(** ** Strings *)

Module strings.
(** [strings.HasPrefix]. *)
Definition HasPrefix (s prefix : string) : bool := String.prefix prefix s.

Fixpoint drop (n : nat) (s : string) : string :=
  match n, s with
  | S k, String _ s' => drop k s'
  | _, _ => s
  end.

(** [strings.Cut(s, sep)]: the text before and after the first [sep], and
    whether [sep] was found; all of [s] and nothing when it is absent. *)
Fixpoint Cut (s sep : string) : string * string * bool :=
  if HasPrefix s sep then ("", drop (String.length sep) s, true)
  else
    match s with
    | EmptyString => ("", "", false)
    | String c s' =>
        let '(before, after, found) := Cut s' sep in
        (String c before, after, found)
    end.

(** [strings.Contains]. *)
Definition Contains (s sub : string) : bool := snd (Cut s sub).
End strings.

(** ** Request data and collector state *)

(** Modelled from the spec: [api.Pager], the page descriptor of a request
    (page number, page size), is declared outside the embedded file. *)
Module Pager.
Record t : Type := mk {
  Page : Z;
  Skip : Z;
  Size : Z
}.
End Pager.

(** Modelled from the spec: [api.RequestData] is declared outside the
    embedded file; the helpers read its [Pager], held through a pointer. *)
Module RequestData.
Record t : Type := mk {
  Pager : option Pager.t
}.
End RequestData.

(** Modelled from the spec: [api.ApiCollectorStateManager] is declared
    outside the embedded file; the helpers read the collector state it
    carries, the [IsIncremental] flag and the watermark [Since], nil when no
    watermark exists. *)
Record ApiCollectorStateManager : Type := mkState {
  IsIncremental : bool;
  Since : option Time
}.

(** Modelled from the spec: [api.ApiCollectorArgs] is declared outside the
    embedded file; the helpers read its [PageSize]. *)
Record ApiCollectorArgs : Type := mkArgs {
  PageSize : Z
}.

Module BitbucketServerPagination.
(** The untyped [Values] are kept as the raw text of each element. *)
Record t : Type := mk {
  Values : list string;
  Limit : Z;
  Size : Z;
  Page : Z;
  Start : Z;
  Next : string;
  IsLastPage : bool
}.
(** The zero value, [&BitbucketServerPagination{}]. *)
Definition zero : t := mk [] 0 0 0 0 "" false.
End BitbucketServerPagination.

(** ** HTTP responses and the libraries behind the decoders *)

(** What [io.ReadAll(res.Body)] gives. *)
Inductive BodyRead : Type :=
| ReadOk (data : string)
| ReadErr (err : GoError).

(** An [http.Response]: [RequestURL] is [res.Request.URL.String()], nil when
    the response has no request (or the request no URL) attached. *)
Record Response : Type := mkResponse {
  StatusCode : Z;
  Body : BodyRead;
  RequestURL : option string
}.

Definition StatusUnauthorized : Z := 401.
Definition StatusNotFound : Z := 404.

(** [json.Unmarshal(data, &message)] into a message of type [M]: the message
    as the decoder leaves it, and the decoder's error. *)
Class JsonUnmarshal (M : Type) : Type :=
  json_Unmarshal : string -> M -> M * option GoError.

Module net_url.
(** The parts of a [url.URL]. *)
Record URL : Type := mkURL {
  Scheme : string;
  Opaque : string;
  Host : string;
  Path : string;
  RawQuery : string;
  Fragment : string
}.

(** [url.Parse]. *)
Class Parser : Type := Parse : string -> GoError + URL.
End net_url.

(** Modelled from the spec: [api.UnmarshalResponse], the envelope decode of
    the shared helper package, is outside the embedded file: it unmarshals
    the full pagination envelope from the response into [body] and reports
    a decode failure as an error. *)
Class ApiUnmarshal : Type :=
  UnmarshalResponse :
    option Response -> BitbucketServerPagination.t ->
    BitbucketServerPagination.t * option Error.

(** ** Query builders *)

Module url.
(** [url.Values], a [map[string][]string]. *)
Abbreviation Values := (gmap string (list string)).

(** [v.Set(key, value)] replaces whatever the key held. *)
Definition Set_ (key value : string) (v : Values) : Values :=
  <[key := [value]]> v.

(** [v[key]]: a missing key reads as the nil slice. *)
Definition index (v : Values) (key : string) : list string :=
  default [] (v !! key).

Definition ishex (c : ascii) : bool :=
  let n := nat_of_ascii c in
  ((48 <=? n) && (n <=? 57) || (97 <=? n) && (n <=? 102)
   || (65 <=? n) && (n <=? 70))%nat.

Definition unhex (c : ascii) : nat :=
  let n := nat_of_ascii c in
  (if (48 <=? n) && (n <=? 57) then n - 48
   else if (97 <=? n) && (n <=? 102) then n - 97 + 10
   else if (65 <=? n) && (n <=? 70) then n - 65 + 10
   else 0)%nat.

(** [url.QueryUnescape]: [%XX] becomes the byte [XX], [+] a space; a [%]
    not followed by two hexadecimal digits is an error. *)
Fixpoint QueryUnescape (s : string) : option string :=
  match s with
  | EmptyString => Some EmptyString
  | String "%" (String a (String b rest)) =>
      if ishex a && ishex b
      then String (ascii_of_nat (unhex a * 16 + unhex b)) <$> QueryUnescape rest
      else None
  | String "%" _ => None
  | String "+" rest => String " " <$> QueryUnescape rest
  | String c rest => String c <$> QueryUnescape rest
  end.

(** The [&]-separated pieces that the loop of [parseQuery] visits, in
    order: each turn cuts the text before the next [&] off the query, and
    the loop stops when nothing is left. *)
Fixpoint pieces (cur query : string) : list string :=
  match query with
  | EmptyString => [cur]
  | String "&" EmptyString => [cur]
  | String "&" rest => cur :: pieces "" rest
  | String c rest => pieces (cur +:+ String c "") rest
  end.

(** One turn of the loop of [parseQuery] on the piece [key]. *)
Definition parseQuery_step (m : Values) (key : string) : Values :=
  if strings.Contains key ";" then m
  else if String.eqb key "" then m
  else
    let '(key, value, _) := strings.Cut key "=" in
    match QueryUnescape key with
    | None => m
    | Some key =>
        match QueryUnescape value with
        | None => m
        | Some value => <[key := (index m key ++ [value])%list]> m
        end
    end.

(** [u.Query()]: [ParseQuery(u.RawQuery)] with its error dropped. *)
Definition Query (u : net_url.URL) : Values :=
  match net_url.RawQuery u with
  | EmptyString => ∅
  | query => fold_left parseQuery_step (pieces "" query) ∅
  end.
End url.

Definition nil_pointer_dereference : string :=
  "invalid memory address or nil pointer dereference".

Definition GetQuery (reqData : RequestData.t) : Outcome (url.Values * option Error) :=
  match RequestData.Pager reqData with
  | None => Panics nil_pointer_dereference
  | Some pager =>
      let query : url.Values := ∅ in
      let query := url.Set_ "state" "all" query in
      let query := url.Set_ "page" (GoInt.Sprint (Pager.Page pager)) query in
      let query := url.Set_ "pagelen" (GoInt.Sprint (Pager.Size pager)) query in
      Returns (query, None)
  end.

Definition GetQueryCreatedAndUpdated (fields : string)
    (collectorWithState : ApiCollectorStateManager)
    (reqData : RequestData.t) : Outcome (url.Values * option Error) :=
  obind (GetQuery reqData) (fun '(query, err) =>
   match err with
   | Some e => Returns (∅, Some e)
   | None =>
       let query := url.Set_ "fields" fields query in
       let query := url.Set_ "sort" "created_on" query in
       let query :=
         match Since collectorWithState with
         | Some since =>
             url.Set_ "q" ("updated_on>=" +:+ time.Format_RFC3339 since) query
         | None => query
         end in
       Returns (query, None)
   end).

Definition GetQueryFields (fields : string) (reqData : RequestData.t)
    : Outcome (url.Values * option Error) :=
  obind (GetQuery reqData) (fun '(query, err) =>
   match err with
   | Some e => Returns (∅, Some e)
   | None =>
       let query := url.Set_ "fields" fields query in
       Returns (query, None)
   end).

(** ** Response decoders *)

Section Decoders.
Context {M : Type} `{!JsonUnmarshal M}.

(** The message is decoded in place: the result pairs the message as the
    call leaves it with the returned error. *)
Definition decodeResponse (res : option Response) (message : M)
    : Outcome (M * option Error) :=
  match res with
  | None => Returns (message, Some (New Default "res is nil"))
  | Some res =>
      match Body res with
      | ReadErr err =>
          match RequestURL res with
          | None => Panics nil_pointer_dereference
          | Some u =>
              Returns (message,
                       Some (Wrap Default (Converted err)
                               ("error reading response from " +:+ u)))
          end
      | ReadOk resBody =>
          let '(message, err) := json_Unmarshal resBody message in
          match Convert err with
          | Some err =>
              match RequestURL res with
              | None => Panics nil_pointer_dereference
              | Some u =>
                  Returns (message,
                           Some (Wrap Default err
                                   ("error decoding response from " +:+ u +:+
                                    ": raw response: " +:+ resBody)))
              end
          | None => Returns (message, None)
          end
      end
  end.
End Decoders.

(** The anonymous struct of [GetNextPageCustomData]. *)
Module NextMessage.
Record t : Type := mk { Next : string }.
Definition zero : t := mk "".
End NextMessage.

(** The anonymous struct of [GetRawMessageFromResponse]. *)
Module ValuesMessage.
Record t : Type := mk { Values : list string }.
Definition zero : t := mk [].
End ValuesMessage.

Definition index_out_of_range : string :=
  "index out of range [0] with length 0".

Section NextPage.
Context `{!JsonUnmarshal NextMessage.t} `{!net_url.Parser}.

(** The returned [interface{}] is nil ([None]) or holds a string. *)
Definition GetNextPageCustomData (_ : RequestData.t)
    (prevPageResponse : option Response)
    : Outcome (option string * option Error) :=
  obind (decodeResponse prevPageResponse NextMessage.zero)
    (fun '(rawMessages, err) =>
     match err with
     | Some err => Returns (None, Some err)
     | None =>
         if String.eqb (NextMessage.Next rawMessages) ""
         then Returns (Some "", Some ErrFinishCollect)
         else
           match net_url.Parse (NextMessage.Next rawMessages) with
           | inl err => Returns (None, Some (Converted err))
           | inr u =>
               match url.index (url.Query u) "page" with
               | [] => Panics index_out_of_range
               | page :: _ => Returns (Some page, None)
               end
           end
     end).
End NextPage.

Definition integer_divide_by_zero : string := "integer divide by zero".

Section TotalPages.
Context `{!ApiUnmarshal}.

Definition GetTotalPagesFromResponse (res : option Response)
    (args : ApiCollectorArgs) : Outcome (Z * option Error) :=
  let '(body, err) := UnmarshalResponse res BitbucketServerPagination.zero in
  match err with
  | Some err => Returns (0, Some err)
  | None =>
      if PageSize args =? 0 then Panics integer_divide_by_zero
      else
        let pages :=
          GoInt.wrap (Z.quot (BitbucketServerPagination.Size body)
                             (PageSize args)) in
        let pages :=
          if Z.rem (BitbucketServerPagination.Size body) (PageSize args) >? 0
          then GoInt.wrap (pages + 1)
          else pages in
        Returns (pages, None)
  end.
End TotalPages.

Section RawMessages.
Context `{!JsonUnmarshal ValuesMessage.t}.

Definition GetRawMessageFromResponse (res : option Response)
    : Outcome (list string * option Error) :=
  obind (decodeResponse res ValuesMessage.zero)
    (fun '(rawMessages, err) =>
     match err with
     | Some err => Returns ([], Some err)
     | None => Returns (ValuesMessage.Values rawMessages, None)
     end).
End RawMessages.

(** ** Status classification *)

Definition ignoreHTTPStatus404 (res : option Response) : Outcome (option Error) :=
  match res with
  | None => Panics nil_pointer_dereference
  | Some res =>
      if StatusCode res =? StatusUnauthorized
      then Returns (Some (New Unauthorized
                            "authentication failed, please check your AccessToken"))
      else if StatusCode res =? StatusNotFound
      then Returns (Some ErrIgnoreAndContinue)
      else Returns None
  end.

(** ** The data access layer behind the seed iterators *)

Module dal.
(** A column value. *)
Inductive Value : Type :=
| VNull
| VString (s : string)
| VUint (n : Z)
| VTime (t : Time).

(** A row maps column names to values; a column it lacks reads as NULL. *)
Abbreviation Row := (gmap string Value).

(** A database maps table names to their rows. *)
Abbreviation DB := (gmap string (list Row)).

(** Modelled from the spec: package [dal] is outside the embedded file;
    the iterators build their query from its three clauses, [dal.Select],
    [dal.From] and [dal.Where] with the arguments bound to its [?]. *)
Inductive Clause : Type :=
| Select (fields : string)
| From (table : string)
| Where (cond : string) (args : list Value).

Inductive Cmp : Type := CmpEq | CmpGt.

(** One comparison [column op ?] with its bound argument. *)
Record Atom : Type := mkAtom {
  column : string;
  cmp : Cmp;
  arg : Value
}.

(** The blank-separated words of a clause text. *)
Fixpoint words (cur s : string) : list string :=
  match s with
  | EmptyString => if String.eqb cur "" then [] else [cur]
  | String " " rest =>
      if String.eqb cur "" then words "" rest else cur :: words "" rest
  | String c rest => words (cur +:+ String c "") rest
  end.

(** A column reference, qualified by the table alias or not. *)
Definition resolve (alias ref : string) : option string :=
  let '(before, after, found) := strings.Cut ref "." in
  if found then (if String.eqb before alias then Some after else None)
  else Some ref.

Definition parse_cmp (op : string) : option Cmp :=
  if String.eqb op "=" then Some CmpEq
  else if String.eqb op ">" then Some CmpGt
  else None.

(** A condition is a conjunction [c1 op ? and c2 op ? ...]; the arguments
    are bound to the placeholders from left to right. *)
Fixpoint parse_cond (alias : string) (toks : list string) (args : list Value)
    : option (list Atom) :=
  match toks, args with
  | ref :: op :: "?" :: rest, a :: args' =>
      match resolve alias ref, parse_cmp op with
      | Some col, Some c =>
          match rest, args' with
          | [], [] => Some [mkAtom col c a]
          | "and" :: rest', _ => cons (mkAtom col c a) <$> parse_cond alias rest' args'
          | _, _ => None
          end
      | _, _ => None
      end
  | _, _ => None
  end.

Definition same_instant (t u : Time) : bool :=
  (unix_sec t =? unix_sec u) && (nsec t =? nsec u).

(** Whether a row satisfies a comparison; a comparison with NULL, or
    between values of different kinds, selects nothing. *)
Definition holds (row : Row) (a : Atom) : bool :=
  match cmp a, default VNull (row !! column a), arg a with
  | CmpEq, VString x, VString y => String.eqb x y
  | CmpEq, VUint x, VUint y => x =? y
  | CmpEq, VTime x, VTime y => same_instant x y
  | CmpGt, VUint x, VUint y => y <? x
  | CmpGt, VTime x, VTime y => time.After x y
  | _, _, _ => false
  end.

(** The table and alias of the last [From], the column of the last
    [Select]. *)
Fixpoint from_of (clauses : list Clause) (acc : option (string * string))
    : option (string * string) :=
  match clauses with
  | [] => acc
  | From t :: rest =>
      match words "" t with
      | [table] => from_of rest (Some (table, table))
      | [table; alias] => from_of rest (Some (table, alias))
      | _ => None
      end
  | _ :: rest => from_of rest acc
  end.

Fixpoint select_of (clauses : list Clause) (acc : option string) : option string :=
  match clauses with
  | [] => acc
  | Select f :: rest => select_of rest (Some f)
  | _ :: rest => select_of rest acc
  end.

(** All [Where] clauses, conjoined. *)
Fixpoint where_of (alias : string) (clauses : list Clause) : option (list Atom) :=
  match clauses with
  | [] => Some []
  | Where cond args :: rest =>
      match parse_cond alias (words "" cond) args, where_of alias rest with
      | Some atoms, Some more => Some (atoms ++ more)%list
      | _, _ => None
      end
  | _ :: rest => where_of alias rest
  end.

Definition satisfies (atoms : list Atom) (row : Row) : bool :=
  forallb (holds row) atoms.

(** Modelled from the spec: the base query of the input source, all rows
    of the queried table that match every condition. *)
Definition matching (db : DB) (clauses : list Clause) : Error + list Row :=
  match from_of clauses None with
  | None => inl (New Default "invalid table")
  | Some (table, alias) =>
      match db !! table, where_of alias clauses with
      | Some rows, Some atoms => inr (List.filter (satisfies atoms) rows)
      | None, _ => inl (New Default ("no such table: " +:+ table))
      | _, None => inl (New Default "invalid condition")
      end
  end.

(** A selected row as the cursor presents it: the selected column only. *)
Definition project (col : string) (row : Row) : Row :=
  {[ col := default VNull (row !! col) ]}.

(** Modelled from the spec: [db.Cursor(clauses...)] is outside the embedded
    file: a read-only cursor over the selected rows, in table order, each
    reduced to the selected column. *)
Definition Cursor (db : DB) (clauses : list Clause) : Error + list Row :=
  match from_of clauses None, select_of clauses None with
  | Some (_, alias), Some f =>
      match resolve alias f, matching db clauses with
      | Some col, inr rows => inr (map (project col) rows)
      | None, _ => inl (New Default "invalid column")
      | _, inl e => inl e
      end
  | None, _ => inl (New Default "invalid table")
  | _, None => inl (New Default "invalid column")
  end.
End dal.

(** ** Seed inputs and their iterators *)

Record BitbucketServerApiParams : Type := mkParams {
  ConnectionId : Z;
  FullName : string
}.

(** Modelled from the spec: the task options are declared outside the
    embedded file; the iterators read the connection identifier and the
    resource full name that make the scope of a run. *)
Record BitbucketTaskData : Type := mkTaskData {
  Options : BitbucketServerApiParams
}.

(** Modelled from the spec: [plugin.SubTaskContext] is declared outside the
    embedded file; the iterators take the database handle and the task data
    from it. *)
Record SubTaskContext : Type := mkContext {
  GetDal : dal.DB;
  GetData : BitbucketTaskData
}.

(** The shape each pulled row is decoded into. *)
Inductive InputType : Type :=
| BitbucketServerInput
| BitbucketServerBranchInput
| BitbucketServerCommitInput.

(** Modelled from the spec: [api.DalCursorIterator] is declared outside the
    embedded file: a finite sequence of seed rows read through a cursor,
    with the shape they are decoded into. *)
Record DalCursorIterator : Type := mkIterator {
  cursor : list dal.Row;
  elemType : InputType
}.

Definition NewDalCursorIterator (db : dal.DB) (cursor : list dal.Row)
    (elemType : InputType) : option DalCursorIterator * option Error :=
  (Some (mkIterator cursor elemType), None).

Definition GetBranchesIterator (taskCtx : SubTaskContext)
    (collectorWithState : ApiCollectorStateManager)
    : option DalCursorIterator * option Error :=
  let db := GetDal taskCtx in
  let data := GetData taskCtx in
  let clauses :=
    [ dal.Select "bb.branch";
      dal.From "_tool_bitbucket_server_branches bb";
      dal.Where "bb.repo_id = ? and bb.connection_id = ?"
        [dal.VString (FullName (Options data));
         dal.VUint (ConnectionId (Options data))] ] in
  let clauses :=
    match IsIncremental collectorWithState, Since collectorWithState with
    | true, Some since =>
        (clauses ++ [dal.Where "bitbucket_updated_at > ?" [dal.VTime since]])%list
    | _, _ => clauses
    end in
  match dal.Cursor db clauses with
  | inl err => (None, Some err)
  | inr cursor => NewDalCursorIterator db cursor BitbucketServerBranchInput
  end.

Definition GetCommitsIterator (taskCtx : SubTaskContext)
    (collectorWithState : ApiCollectorStateManager)
    : option DalCursorIterator * option Error :=
  let db := GetDal taskCtx in
  let data := GetData taskCtx in
  let clauses :=
    [ dal.Select "bc.commit_sha";
      dal.From "_tool_bitbucket_server_commits bc";
      dal.Where "bc.repo_id = ? and bc.connection_id = ?"
        [dal.VString (FullName (Options data));
         dal.VUint (ConnectionId (Options data))] ] in
  let clauses :=
    match IsIncremental collectorWithState, Since collectorWithState with
    | true, Some since =>
        (clauses ++ [dal.Where "bitbucket_updated_at > ?" [dal.VTime since]])%list
    | _, _ => clauses
    end in
  match dal.Cursor db clauses with
  | inl err => (None, Some err)
  | inr cursor => NewDalCursorIterator db cursor BitbucketServerCommitInput
  end.

Definition GetPullRequestsIterator (taskCtx : SubTaskContext)
    (collectorWithState : ApiCollectorStateManager)
    : option DalCursorIterator * option Error :=
  let db := GetDal taskCtx in
  let data := GetData taskCtx in
  let clauses :=
    [ dal.Select "bpr.bitbucket_id";
      dal.From "_tool_bitbucket_server_pull_requests bpr";
      dal.Where "bpr.repo_id = ? and bpr.connection_id = ?"
        [dal.VString (FullName (Options data));
         dal.VUint (ConnectionId (Options data))] ] in
  let clauses :=
    match IsIncremental collectorWithState, Since collectorWithState with
    | true, Some since =>
        (clauses ++ [dal.Where "bitbucket_updated_at > ?" [dal.VTime since]])%list
    | _, _ => clauses
    end in
  match dal.Cursor db clauses with
  | inl err => (None, Some err)
  | inr cursor => NewDalCursorIterator db cursor BitbucketServerInput
  end.



(** ** Raw data arguments *)




(** ** Notions used by the further properties *)

(** Every key of a query holds exactly one value. *)
Definition single_valued (query : gmap string (list string)) : Prop :=
  forall (key : string) (values : list string),
    query !! key = Some values -> exists value : string, values = [value].

(** A character that the query syntax gives no meaning: not one of
    ampersand, semicolon, percent and plus. *)
Definition plain_char (c : ascii) : bool :=
  negb (Ascii.eqb c "&" || Ascii.eqb c ";" || Ascii.eqb c "%" || Ascii.eqb c "+").

Fixpoint plain (s : string) : bool :=
  match s with
  | EmptyString => true
  | String c rest => plain_char c && plain rest
  end.

(** [t] is not before [u]. *)
Definition not_before (t u : Time) : bool := negb (time.After u t).

(** ** The properties, in the words of the specification *)

(** [Size/PageSize] rounded up. *)
Definition ceil_div (size pageSize : Z) : Z := (size + pageSize - 1) / pageSize.

(** A row lies in the scope of a run: its resource and connection are the
    run's own. *)
Definition in_scope (params : BitbucketServerApiParams) (row : dal.Row) : bool :=
  match row !! "repo_id", row !! "connection_id" with
  | Some (dal.VString r), Some (dal.VUint c) =>
      String.eqb r (FullName params) && (c =? ConnectionId params)
  | _, _ => false
  end.

(** A row's last observed update lies strictly after the watermark. *)
Definition updated_after (since : Time) (row : dal.Row) : bool :=
  match row !! "bitbucket_updated_at" with
  | Some (dal.VTime t) => time.After t since
  | _ => false
  end.

(** The seed rows a run is to observe: those in scope and, under a
    restriction, updated after it. *)
Definition selected (params : BitbucketServerApiParams)
    (restriction : option Time) (row : dal.Row) : bool :=
  in_scope params row &&
  match restriction with
  | Some since => updated_after since row
  | None => true
  end.

(** An iterator that yields, in table order, the selected column of the
    rows [observed]. *)
Definition yields (result : option DalCursorIterator * option Error)
    (col : string) (ty : InputType) (observed : list dal.Row) : Prop :=
  result = (Some (mkIterator (map (dal.project col) observed) ty), None).

(** What the three seed iterators have in common: the function, the table
    it reads, the column it selects and the shape it decodes into. *)
Record SeedSource : Type := mkSource {
  constructor : SubTaskContext -> ApiCollectorStateManager ->
                option DalCursorIterator * option Error;
  table : string;
  seed_column : string;
  seed_type : InputType
}.

Definition seed_sources : list SeedSource :=
  [ mkSource GetBranchesIterator "_tool_bitbucket_server_branches"
      "branch" BitbucketServerBranchInput;
    mkSource GetCommitsIterator "_tool_bitbucket_server_commits"
      "commit_sha" BitbucketServerCommitInput;
    mkSource GetPullRequestsIterator "_tool_bitbucket_server_pull_requests"
      "bitbucket_id" BitbucketServerInput ].

(** The restriction an iterator applies under a collector state. *)
Definition restriction_of (st : ApiCollectorStateManager) : option Time :=
  if IsIncremental st then Since st else None.

(** The comparisons behind the scope condition and the restriction. *)
Definition scope_atoms (params : BitbucketServerApiParams) : list dal.Atom :=
  [ dal.mkAtom "repo_id" dal.CmpEq (dal.VString (FullName params));
    dal.mkAtom "connection_id" dal.CmpEq (dal.VUint (ConnectionId params)) ].

Definition restriction_atoms (restriction : option Time) : list dal.Atom :=
  match restriction with
  | Some since => [ dal.mkAtom "bitbucket_updated_at" dal.CmpGt (dal.VTime since) ]
  | None => []
  end.

(** ** Concrete libraries and data for the examples *)

Module Fixtures.
Definition dquote : string := String "034"%char "".

(** Text between a fixed opening and a fixed closing, when [s] has both. *)
Definition between (opening closing s : string) : option string :=
  if strings.HasPrefix s opening then
    let rest := strings.drop (String.length opening) s in
    let '(before, after, found) := strings.Cut rest closing in
    if found && String.eqb after "" then Some before else None
  else None.

(** A decoder for bodies of the one shape [{"next":"..."}] (and [{}]). *)
Definition unmarshal_next : JsonUnmarshal NextMessage.t :=
  fun data message =>
    if String.eqb data "{}" then (message, None)
    else
      match between ("{" +:+ dquote +:+ "next" +:+ dquote +:+ ":" +:+ dquote)
                    (dquote +:+ "}") data with
      | Some next => (NextMessage.mk next, None)
      | None => (message, Some "invalid character looking for beginning of value")
      end.

(** A decoder that accepts only the empty envelope [{"values":[]}]. *)
Definition unmarshal_values : JsonUnmarshal ValuesMessage.t :=
  fun data message =>
    if String.eqb data ("{" +:+ dquote +:+ "values" +:+ dquote +:+ ":[]}")
    then (ValuesMessage.mk [], None)
    else (message, Some "invalid character looking for beginning of value").

(** An envelope decoder for bodies of the one shape [{"size":N}]. *)
Definition unmarshal_envelope : ApiUnmarshal :=
  fun res body =>
    match res with
    | Some (mkResponse _ (ReadOk data) _) =>
        match between ("{" +:+ dquote +:+ "size" +:+ dquote +:+ ":") "}" data with
        | Some digits =>
            match NilZero.int_of_string digits with
            | Some n =>
                (BitbucketServerPagination.mk [] 0 (Z.of_int n) 0 0 "" false, None)
            | None => (body, Some (New Default "error decoding response"))
            end
        | None => (body, Some (New Default "error decoding response"))
        end
    | _ => (body, Some (New Default "error reading response"))
    end.

Definition is_letter (c : ascii) : bool :=
  let n := nat_of_ascii c in
  ((97 <=? n) && (n <=? 122) || (65 <=? n) && (n <=? 90))%nat.

Definition is_scheme_char (c : ascii) : bool :=
  let n := nat_of_ascii c in
  ((48 <=? n) && (n <=? 57) || (n =? 43) || (n =? 45) || (n =? 46))%nat.

(** [getScheme]: the text before the first [:] when it is a scheme. *)
Fixpoint getScheme (first : bool) (acc s raw : string) : GoError + string * string :=
  match s with
  | EmptyString => inr ("", raw)
  | String c rest =>
      if is_letter c then getScheme false (acc +:+ String c "") rest raw
      else if is_scheme_char c then
        (if first then inr ("", raw) else getScheme false (acc +:+ String c "") rest raw)
      else if Ascii.eqb c ":" then
        (if first then inl "missing protocol scheme" else inr (acc, rest))
      else inr ("", raw)
  end.

Fixpoint has_ctl (s : string) : bool :=
  match s with
  | EmptyString => false
  | String c rest =>
      let n := nat_of_ascii c in
      ((n <? 32) || (n =? 127))%nat || has_ctl rest
  end.

(** A parser that splits a URL the way [url.Parse] does (fragment, scheme,
    query, authority, path) and checks neither escapes nor the host. *)
Definition parse_url : net_url.Parser :=
  fun rawURL =>
    let '(u, frag, _) := strings.Cut rawURL "#" in
    if has_ctl u then inl "net/url: invalid control character in URL"
    else
      match getScheme true "" u u with
      | inl err => inl err
      | inr (scheme, rest) =>
          let '(rest, query, _) := strings.Cut rest "?" in
          if negb (strings.HasPrefix rest "/") && negb (String.eqb scheme "")
          then inr (net_url.mkURL scheme rest "" "" query frag)
          else if negb (strings.HasPrefix rest "/")
                  && strings.Contains (fst (fst (strings.Cut rest "/"))) ":"
          then inl "first path segment in URL cannot contain colon"
          else if strings.HasPrefix rest "//" then
            let '(authority, path, found) :=
              strings.Cut (strings.drop 2 rest) "/" in
            inr (net_url.mkURL scheme "" authority
                   (if found then "/" +:+ path else "") query frag)
          else inr (net_url.mkURL scheme "" "" rest query frag)
      end.

Definition t2023 : Time := mkTime 1672531200 0 0.

Definition page3 : RequestData.t := RequestData.mk (Some (Pager.mk 3 0 100)).

Definition response (status : Z) (body : string) : Response :=
  mkResponse status (ReadOk body) (Some "https://host/rest/api/1.0/projects/P/repos/r/commits").

Definition next_body (next : string) : string :=
  "{" +:+ dquote +:+ "next" +:+ dquote +:+ ":" +:+ dquote +:+ next +:+ dquote +:+ "}".

Definition size_body (size : string) : string :=
  "{" +:+ dquote +:+ "size" +:+ dquote +:+ ":" +:+ size +:+ "}".

Definition branch_row (repo : string) (conn : Z) (branch : string) (updated : Z) : dal.Row :=
  {[ "repo_id" := dal.VString repo; "connection_id" := dal.VUint conn;
     "branch" := dal.VString branch;
     "bitbucket_updated_at" := dal.VTime (mkTime updated 0 0) ]}.

Definition branches : list dal.Row :=
  [ branch_row "P/r" 1 "main" 10; branch_row "P/r" 1 "dev" 30;
    branch_row "P/q" 1 "main" 30; branch_row "P/r" 2 "main" 30 ].

Definition db : dal.DB := {[ "_tool_bitbucket_server_branches" := branches ]}.

Definition run (conn : Z) (repo : string) : SubTaskContext :=
  mkContext db (mkTaskData (mkParams conn repo)).
End Fixtures.

(** ** Sanity checks of the embedding on concrete inputs *)

Example Sprint_decimal :
  GoInt.Sprint 100 = "100" /\ GoInt.Sprint 0 = "0" /\ GoInt.Sprint (-7) = "-7".
Proof. repeat split. Qed.

Example Format_RFC3339_utc :
  time.Format_RFC3339 Fixtures.t2023 = "2023-01-01T00:00:00Z".
Proof. vm_compute. reflexivity. Qed.

Example Format_RFC3339_offset :
  time.Format_RFC3339 (mkTime 1709210096 5 7200) = "2024-02-29T14:34:56+02:00".
Proof. vm_compute. reflexivity. Qed.

Example Query_repeated_keys :
  url.Query (net_url.mkURL "" "" "" "" "page=7&other=x&page=9&&a%2" "") =
  {[ "page" := ["7"; "9"]; "other" := ["x"] ]}.
Proof. vm_compute. reflexivity. Qed.

Example Query_escapes :
  url.Query (net_url.mkURL "" "" "" "" "p%61ge=a+b%2Fc&x;y=1&page" "") =
  {[ "page" := ["a b/c"; ""] ]}.
Proof. vm_compute. reflexivity. Qed.

Example parse_url_next :
  Fixtures.parse_url "https://host/path?page=7&other=x" =
  inr (net_url.mkURL "https" "" "host" "/path" "page=7&other=x" "").
Proof. vm_compute. reflexivity. Qed.

Example unmarshal_next_body :
  Fixtures.unmarshal_next (Fixtures.next_body "abc") NextMessage.zero =
  (NextMessage.mk "abc", None).
Proof. vm_compute. reflexivity. Qed.

Example branches_incremental :
  GetBranchesIterator (Fixtures.run 1 "P/r") (mkState true (Some (mkTime 20 0 0))) =
  (Some (mkIterator [ {[ "branch" := dal.VString "dev" ]} ]
           BitbucketServerBranchInput), None).
Proof. vm_compute. reflexivity. Qed.

Example branches_full :
  GetBranchesIterator (Fixtures.run 1 "P/r") (mkState false (Some (mkTime 20 0 0))) =
  (Some (mkIterator [ {[ "branch" := dal.VString "main" ]};
                      {[ "branch" := dal.VString "dev" ]} ]
           BitbucketServerBranchInput), None).
Proof. vm_compute. reflexivity. Qed.

(** ** Query builders *)

Lemma Set_lookup (key value : string) (v : gmap string (list string)) :
  url.Set_ key value v !! key = Some [value].
Proof. unfold url.Set_. apply lookup_insert_eq. Qed.

Lemma Set_lookup_other (key key' value : string) (v : gmap string (list string)) :
  key <> key' -> url.Set_ key value v !! key' = v !! key'.
Proof. intros Hne. unfold url.Set_. by apply lookup_insert_ne. Qed.

Ltac query_lookup :=
  repeat first
    [ rewrite Set_lookup
    | rewrite Set_lookup_other by discriminate
    | rewrite lookup_empty ];
  try reflexivity.

(** C8: for every page descriptor the base query builder returns, without
    error, a query that holds state=all, page=<current page> and
    pagelen=<page size>, and no other key. *)
Theorem GetQuery_exactly_three (reqData : RequestData.t) (pager : Pager.t) :
  RequestData.Pager reqData = Some pager ->
  exists query : gmap string (list string),
    GetQuery reqData = Returns (query, None) /\
    query !! "state" = Some ["all"] /\
    query !! "page" = Some [GoInt.Sprint (Pager.Page pager)] /\
    query !! "pagelen" = Some [GoInt.Sprint (Pager.Size pager)] /\
    dom query = ({[ "state"; "page"; "pagelen" ]} : gset string).
Proof.
  intros Hpager. unfold GetQuery. rewrite Hpager.
  eexists. split; [reflexivity |].
  repeat split; query_lookup.
Qed.

Lemma GetQuery_exactly_three_witness :
  RequestData.Pager Fixtures.page3 = Some (Pager.mk 3 0 100) /\
  exists query : gmap string (list string),
    GetQuery Fixtures.page3 = Returns (query, None) /\
    query !! "state" = Some ["all"] /\
    query !! "page" = Some ["3"] /\
    query !! "pagelen" = Some ["100"] /\
    dom query = ({[ "state"; "page"; "pagelen" ]} : gset string).
Proof.
  split; [reflexivity |].
  apply (GetQuery_exactly_three Fixtures.page3 (Pager.mk 3 0 100)).
  reflexivity.
Defined.

(** The incremental variant filters by the watermark also when the run is
    not incremental: the claim C1 as stated, with [IsIncremental] in the
    condition, fails. *)
Lemma GetQueryCreatedAndUpdated_q_when_not_incremental :
  ~ (forall (fields : string) (st : ApiCollectorStateManager)
            (reqData : RequestData.t) (query : gmap string (list string)),
        GetQueryCreatedAndUpdated fields st reqData = Returns (query, None) ->
        (is_Some (query !! "q") <->
         IsIncremental st = true /\ is_Some (Since st))).
Proof.
  intros Hclaim.
  destruct (Hclaim "values.id" (mkState false (Some Fixtures.t2023))
              Fixtures.page3 _ eq_refl) as [Hq _].
  destruct Hq as [Hfalse _]; [| discriminate Hfalse].
  query_lookup. eauto.
Qed.

(** C1 (amended): the incremental variant always sets fields and
    sort=created_on, and sets q=updated_on>=<RFC3339 watermark> if and only
    if a watermark exists, whatever [IsIncremental] is; with [Since] nil
    the query has no q. *)
Theorem GetQueryCreatedAndUpdated_q_iff_watermark
    (fields : string) (st : ApiCollectorStateManager)
    (reqData : RequestData.t) (pager : Pager.t) :
  RequestData.Pager reqData = Some pager ->
  exists query : gmap string (list string),
    GetQueryCreatedAndUpdated fields st reqData = Returns (query, None) /\
    query !! "fields" = Some [fields] /\
    query !! "sort" = Some ["created_on"] /\
    query !! "q" =
      (fun since => ["updated_on>=" +:+ time.Format_RFC3339 since]) <$> Since st /\
    (is_Some (query !! "q") <-> is_Some (Since st)).
Proof.
  intros Hpager.
  unfold GetQueryCreatedAndUpdated, GetQuery. rewrite Hpager. simpl.
  eexists. split; [reflexivity |].
  assert (Hq : forall q0 : gmap string (list string),
             q0 !! "q" = None ->
             match Since st with
             | Some since =>
                 url.Set_ "q" ("updated_on>=" +:+ time.Format_RFC3339 since) q0
             | None => q0
             end !! "q" =
             (fun since => ["updated_on>=" +:+ time.Format_RFC3339 since]) <$> Since st).
  { intros q0 Hnone. destruct (Since st); simpl; [apply Set_lookup | exact Hnone]. }
  repeat split.
  - destruct (Since st); query_lookup.
  - destruct (Since st); query_lookup.
  - apply Hq. query_lookup.
  - rewrite Hq by query_lookup. intros [v Hv]. destruct (Since st); [eauto | discriminate].
  - rewrite Hq by query_lookup. intros [t ->]. simpl. eauto.
Qed.

Lemma GetQueryCreatedAndUpdated_q_iff_watermark_witness :
  RequestData.Pager Fixtures.page3 = Some (Pager.mk 3 0 100) /\
  exists query : gmap string (list string),
    GetQueryCreatedAndUpdated "values.id" (mkState false (Some Fixtures.t2023))
      Fixtures.page3 = Returns (query, None) /\
    query !! "fields" = Some ["values.id"] /\
    query !! "sort" = Some ["created_on"] /\
    query !! "q" =
      (fun since => ["updated_on>=" +:+ time.Format_RFC3339 since])
        <$> Some Fixtures.t2023 /\
    (is_Some (query !! "q") <-> is_Some (Some Fixtures.t2023)).
Proof.
  split; [reflexivity |].
  apply (GetQueryCreatedAndUpdated_q_iff_watermark "values.id"
           (mkState false (Some Fixtures.t2023)) Fixtures.page3 (Pager.mk 3 0 100)).
  reflexivity.
Defined.

Example GetQueryCreatedAndUpdated_incremental :
  GetQueryCreatedAndUpdated "values.id" (mkState true (Some Fixtures.t2023))
    Fixtures.page3 =
  Returns ({[ "state" := ["all"]; "page" := ["3"]; "pagelen" := ["100"];
              "fields" := ["values.id"]; "sort" := ["created_on"];
              "q" := ["updated_on>=2023-01-01T00:00:00Z"] ]}, None).
Proof. vm_compute. reflexivity. Qed.

Example GetQueryCreatedAndUpdated_no_watermark :
  GetQueryCreatedAndUpdated "values.id" (mkState true None) Fixtures.page3 =
  Returns ({[ "state" := ["all"]; "page" := ["3"]; "pagelen" := ["100"];
              "fields" := ["values.id"]; "sort" := ["created_on"] ]}, None).
Proof. vm_compute. reflexivity. Qed.

(** ** Status classification *)

(** A server error is not turned into a failure by the classifier: the
    claim C2 as stated, with every other non-success status mapped to an
    error, fails at status 500. *)
Lemma ignoreHTTPStatus404_passes_server_errors :
  ~ (forall res : Response,
        StatusCode res <> 401 -> StatusCode res <> 404 ->
        ~ 200 <= StatusCode res < 300 ->
        exists e : Error, ignoreHTTPStatus404 (Some res) = Returns (Some e)).
Proof.
  intros Hclaim.
  destruct (Hclaim (Fixtures.response 500 "")) as [e He];
    [discriminate | discriminate | simpl; lia |].
  discriminate He.
Qed.

(** C2 (amended): status 401 is classified as an authentication error,
    status 404 as the ignore-and-continue signal, and every other status,
    the server errors among them, is passed through with no error. *)
Theorem ignoreHTTPStatus404_classification (res : Response) :
  (StatusCode res = 401 ->
   exists msg : string,
     ignoreHTTPStatus404 (Some res) = Returns (Some (New Unauthorized msg))) /\
  (StatusCode res = 404 ->
   ignoreHTTPStatus404 (Some res) = Returns (Some ErrIgnoreAndContinue) /\
   is_signal ErrIgnoreAndContinue = true) /\
  (StatusCode res <> 401 -> StatusCode res <> 404 ->
   ignoreHTTPStatus404 (Some res) = Returns None).
Proof.
  unfold ignoreHTTPStatus404, StatusUnauthorized, StatusNotFound.
  split; [| split].
  - intros ->. simpl. eauto.
  - intros ->. split; reflexivity.
  - intros H401 H404.
    destruct (Z.eqb_spec (StatusCode res) 401); [contradiction |].
    destruct (Z.eqb_spec (StatusCode res) 404); [contradiction |].
    reflexivity.
Qed.

Lemma ignoreHTTPStatus404_classification_witness :
  StatusCode (Fixtures.response 503 "") <> 401 /\
  StatusCode (Fixtures.response 503 "") <> 404 /\
  ignoreHTTPStatus404 (Some (Fixtures.response 503 "")) = Returns None.
Proof.
  assert (H401 : StatusCode (Fixtures.response 503 "") <> 401) by discriminate.
  assert (H404 : StatusCode (Fixtures.response 503 "") <> 404) by discriminate.
  split; [exact H401 | split; [exact H404 |]].
  exact (proj2 (proj2 (ignoreHTTPStatus404_classification (Fixtures.response 503 "")))
           H401 H404).
Defined.

Example ignoreHTTPStatus404_unauthorized :
  ignoreHTTPStatus404 (Some (Fixtures.response 401 "")) =
  Returns (Some (New Unauthorized
                   "authentication failed, please check your AccessToken")).
Proof. reflexivity. Qed.

Example ignoreHTTPStatus404_success :
  ignoreHTTPStatus404 (Some (Fixtures.response 200 "")) = Returns None.
Proof. reflexivity. Qed.

(** ** Page count *)

Lemma wrap_in_range (z : Z) : GoInt.in_range z -> GoInt.wrap z = z.
Proof.
  unfold GoInt.in_range, GoInt.wrap, GoInt.min_int, GoInt.max_int.
  intros Hz. rewrite Z.mod_small; lia.
Qed.

Lemma ceil_div_remainder (size pageSize : Z) :
  0 <= size -> 0 < pageSize ->
  ceil_div size pageSize =
  size / pageSize + (if size mod pageSize >? 0 then 1 else 0).
Proof.
  intros Hs Hp. unfold ceil_div.
  pose proof (Z.div_mod size pageSize ltac:(lia)) as Hdm.
  pose proof (Z.mod_pos_bound size pageSize Hp) as Hr.
  destruct (Z.gtb_spec (size mod pageSize) 0) as [Hpos | Hzero].
  - symmetry. apply (Z.div_unique _ _ _ (size mod pageSize - 1)); lia.
  - symmetry. apply (Z.div_unique _ _ _ (pageSize - 1)); lia.
Qed.

(** C3: for a non-negative [Size] and a positive [PageSize] the page count
    is [Size/PageSize] rounded up: the least number of pages that hold
    [Size] records. *)
Theorem GetTotalPagesFromResponse_rounds_up `{!ApiUnmarshal}
    (res : option Response) (args : ApiCollectorArgs)
    (body : BitbucketServerPagination.t) :
  UnmarshalResponse res BitbucketServerPagination.zero = (body, None) ->
  GoInt.in_range (BitbucketServerPagination.Size body) ->
  GoInt.in_range (PageSize args) ->
  0 <= BitbucketServerPagination.Size body ->
  0 < PageSize args ->
  exists pages : Z,
    GetTotalPagesFromResponse res args = Returns (pages, None) /\
    pages = ceil_div (BitbucketServerPagination.Size body) (PageSize args) /\
    (pages - 1) * PageSize args < BitbucketServerPagination.Size body
      <= pages * PageSize args.
Proof.
  intros Hbody Hsize Hpage Hs Hp.
  unfold GetTotalPagesFromResponse. rewrite Hbody.
  set (size := BitbucketServerPagination.Size body) in *.
  set (pageSize := PageSize args) in *.
  destruct (Z.eqb_spec pageSize 0) as [Hz | _]; [lia |].
  rewrite Z.quot_div_nonneg, Z.rem_mod_nonneg by lia.
  pose proof (Z.div_mod size pageSize ltac:(lia)) as Hdm.
  pose proof (Z.mod_pos_bound size pageSize Hp) as Hr.
  assert (Hq : 0 <= size / pageSize) by (apply Z.div_pos; lia).
  assert (Hle : size / pageSize <= size).
  { apply Z.div_le_upper_bound; nia. }
  unfold GoInt.in_range, GoInt.min_int, GoInt.max_int in Hsize, Hpage.
  rewrite (wrap_in_range (size / pageSize))
    by (unfold GoInt.in_range, GoInt.min_int, GoInt.max_int; lia).
  rewrite ceil_div_remainder by lia.
  destruct (Z.gtb_spec (size mod pageSize) 0) as [Hpos | Hzero].
  - rewrite wrap_in_range
      by (unfold GoInt.in_range, GoInt.min_int, GoInt.max_int; nia).
    eexists. split; [reflexivity |]. split; [reflexivity | nia].
  - eexists. split; [reflexivity |]. split; [lia | nia].
Qed.

Lemma GetTotalPagesFromResponse_rounds_up_witness :
  let res := Some (Fixtures.response 200 (Fixtures.size_body "250")) in
  let body := BitbucketServerPagination.mk [] 0 250 0 0 "" false in
  Fixtures.unmarshal_envelope res BitbucketServerPagination.zero = (body, None) /\
  GoInt.in_range 250 /\ GoInt.in_range 100 /\ 0 <= 250 /\ 0 < 100 /\
  exists pages : Z,
    @GetTotalPagesFromResponse Fixtures.unmarshal_envelope res (mkArgs 100) =
      Returns (pages, None) /\
    pages = 3 /\
    (pages - 1) * 100 < 250 <= pages * 100.
Proof.
  intros res body.
  assert (Hbody : Fixtures.unmarshal_envelope res BitbucketServerPagination.zero
                  = (body, None)) by (vm_compute; reflexivity).
  assert (H250 : GoInt.in_range 250) by (vm_compute; split; discriminate).
  assert (H100 : GoInt.in_range 100) by (vm_compute; split; discriminate).
  assert (Hs : 0 <= 250) by lia.
  assert (Hp : 0 < 100) by lia.
  repeat split; try assumption.
  exact (@GetTotalPagesFromResponse_rounds_up Fixtures.unmarshal_envelope
           res (mkArgs 100) body Hbody H250 H100 Hs Hp).
Defined.

Example GetTotalPagesFromResponse_exact_multiple :
  @GetTotalPagesFromResponse Fixtures.unmarshal_envelope
    (Some (Fixtures.response 200 (Fixtures.size_body "300"))) (mkArgs 100) =
  Returns (3, None).
Proof. vm_compute. reflexivity. Qed.

Example GetTotalPagesFromResponse_empty :
  @GetTotalPagesFromResponse Fixtures.unmarshal_envelope
    (Some (Fixtures.response 200 (Fixtures.size_body "0"))) (mkArgs 100) =
  Returns (0, None).
Proof. vm_compute. reflexivity. Qed.

Example GetTotalPagesFromResponse_zero_page_size :
  @GetTotalPagesFromResponse Fixtures.unmarshal_envelope
    (Some (Fixtures.response 200 (Fixtures.size_body "250"))) (mkArgs 0) =
  Panics integer_divide_by_zero.
Proof. vm_compute. reflexivity. Qed.

(** ** Response decoding *)

Lemma append_empty_r (s : string) : s +:+ "" = s.
Proof.
  induction s as [| c s IH]; [reflexivity | exact (f_equal (String c) IH)].
Qed.

Lemma append_assoc3 (a b c : string) : (a +:+ b) +:+ c = a +:+ b +:+ c.
Proof.
  induction a as [| x a IH]; [reflexivity | exact (f_equal (String x) IH)].
Qed.

Lemma carries_middle (pre part post : string) : carries (pre +:+ part +:+ post) part.
Proof. by exists pre, post. Qed.

Lemma carries_end (pre part : string) : carries (pre +:+ part) part.
Proof. exists pre, "". by rewrite append_empty_r. Qed.

Section DecodeResponse.
Context {M : Type} `{!JsonUnmarshal M}.

(** C7: when the body cannot be read, or is not the JSON of the message,
    [decodeResponse] returns an error (never nil) that wraps the cause and
    whose message carries the URL of the originating request and, for a
    JSON failure, the raw body. *)
Theorem decodeResponse_failure_is_reported
    (res : Response) (message : M) (u : string) :
  RequestURL res = Some u ->
  (forall cause : GoError,
      Body res = ReadErr cause ->
      exists e : Error,
        decodeResponse (Some res) message = Returns (message, Some e) /\
        e = Wrap Default (Converted cause) ("error reading response from " +:+ u) /\
        carries (message_of e) u) /\
  (forall (data : string) (message' : M) (cause : GoError),
      Body res = ReadOk data ->
      json_Unmarshal data message = (message', Some cause) ->
      exists e : Error,
        decodeResponse (Some res) message = Returns (message', Some e) /\
        e = Wrap Default (Converted cause)
              ("error decoding response from " +:+ u +:+
               ": raw response: " +:+ data) /\
        carries (message_of e) u /\
        carries (message_of e) data).
Proof.
  intros Hurl. split.
  - intros cause Hbody. unfold decodeResponse. rewrite Hbody, Hurl.
    eexists. split; [reflexivity |]. split; [reflexivity |].
    simpl. apply carries_end.
  - intros data message' cause Hbody Hjson.
    unfold decodeResponse. rewrite Hbody, Hjson. simpl. rewrite Hurl.
    eexists. split; [reflexivity |]. split; [reflexivity |].
    simpl. split.
    + apply carries_middle.
    + rewrite <- !append_assoc3. apply carries_end.
Qed.

End DecodeResponse.

Lemma decodeResponse_failure_is_reported_witness :
  let res := Fixtures.response 200 "<html>" in
  let u := "https://host/rest/api/1.0/projects/P/repos/r/commits" in
  RequestURL res = Some u /\
  Body res = ReadOk "<html>" /\
  Fixtures.unmarshal_next "<html>" NextMessage.zero =
    (NextMessage.zero, Some "invalid character looking for beginning of value") /\
  exists e : Error,
    @decodeResponse _ Fixtures.unmarshal_next (Some res) NextMessage.zero =
      Returns (NextMessage.zero, Some e) /\
    e = Wrap Default
          (Converted "invalid character looking for beginning of value")
          ("error decoding response from " +:+ u +:+ ": raw response: " +:+ "<html>") /\
    carries (message_of e) u /\
    carries (message_of e) "<html>".
Proof.
  intros res u.
  assert (Hurl : RequestURL res = Some u) by reflexivity.
  assert (Hbody : Body res = ReadOk "<html>") by reflexivity.
  assert (Hjson : Fixtures.unmarshal_next "<html>" NextMessage.zero =
                  (NextMessage.zero,
                   Some "invalid character looking for beginning of value"))
    by (vm_compute; reflexivity).
  split; [exact Hurl | split; [exact Hbody | split; [exact Hjson |]]].
  exact (proj2 (@decodeResponse_failure_is_reported _ Fixtures.unmarshal_next
                  res NextMessage.zero u Hurl)
           "<html>" NextMessage.zero _ Hbody Hjson).
Defined.

Example decodeResponse_unreadable_body :
  @decodeResponse _ Fixtures.unmarshal_next
    (Some (mkResponse 200 (ReadErr "unexpected EOF") (Some "https://host/x")))
    NextMessage.zero =
  Returns (NextMessage.zero,
           Some (Wrap Default (Converted "unexpected EOF")
                   "error reading response from https://host/x")).
Proof. reflexivity. Qed.

Section Callers.
Context `{!JsonUnmarshal NextMessage.t} `{!JsonUnmarshal ValuesMessage.t}
        `{!net_url.Parser}.

(** C9: on a nil response [decodeResponse] dereferences nothing: it returns
    the ordinary error "res is nil" and leaves the message untouched, and
    both of its callers hand that error on. *)
Theorem decodeResponse_nil_response (reqData : RequestData.t) :
  (forall (M : Type) (unmarshal : JsonUnmarshal M) (message : M),
      decodeResponse None message =
        Returns (message, Some (New Default "res is nil"))) /\
  GetNextPageCustomData reqData None =
    Returns (None, Some (New Default "res is nil")) /\
  GetRawMessageFromResponse None =
    Returns ([], Some (New Default "res is nil")) /\
  is_signal (New Default "res is nil") = false.
Proof. repeat split. Qed.
End Callers.

(** ** Cursor links *)

Section NextPageProperties.
Context `{!JsonUnmarshal NextMessage.t} `{!net_url.Parser}.

(** What [GetNextPageCustomData] does once the body has been decoded. *)
Lemma GetNextPageCustomData_decoded (reqData : RequestData.t) (res : Response)
    (data : string) (rawMessages : NextMessage.t) :
  Body res = ReadOk data ->
  json_Unmarshal data NextMessage.zero = (rawMessages, None) ->
  GetNextPageCustomData reqData (Some res) =
    if String.eqb (NextMessage.Next rawMessages) ""
    then Returns (Some "", Some ErrFinishCollect)
    else
      match net_url.Parse (NextMessage.Next rawMessages) with
      | inl err => Returns (None, Some (Converted err))
      | inr u =>
          match url.index (url.Query u) "page" with
          | [] => Panics index_out_of_range
          | page :: _ => Returns (Some page, None)
          end
      end.
Proof.
  intros Hbody Hjson.
  unfold GetNextPageCustomData, decodeResponse.
  rewrite Hbody, Hjson. reflexivity.
Qed.

(** C4: in cursor mode an empty [Next] yields the end-of-collection
    sentinel, which is a signal and not a created error; a [Next] that is
    not empty is parsed as a URL and the first value of its [page] query
    parameter is returned as the next page token, so that
    [https://host/path?page=7&other=x] yields the token 7. *)
Theorem GetNextPageCustomData_cursor (reqData : RequestData.t) (res : Response)
    (data : string) (rawMessages : NextMessage.t) :
  Body res = ReadOk data ->
  json_Unmarshal data NextMessage.zero = (rawMessages, None) ->
  (NextMessage.Next rawMessages = "" ->
   GetNextPageCustomData reqData (Some res) =
     Returns (Some "", Some ErrFinishCollect) /\
   is_signal ErrFinishCollect = true /\
   type_of ErrFinishCollect = None) /\
  (NextMessage.Next rawMessages <> "" ->
   forall (u : net_url.URL) (page : string) (more : list string),
     net_url.Parse (NextMessage.Next rawMessages) = inr u ->
     url.index (url.Query u) "page" = page :: more ->
     GetNextPageCustomData reqData (Some res) = Returns (Some page, None)) /\
  (NextMessage.Next rawMessages = "https://host/path?page=7&other=x" ->
   forall u : net_url.URL,
     net_url.Parse (NextMessage.Next rawMessages) = inr u ->
     net_url.RawQuery u = "page=7&other=x" ->
     GetNextPageCustomData reqData (Some res) = Returns (Some "7", None)).
Proof.
  intros Hbody Hjson.
  rewrite (GetNextPageCustomData_decoded reqData res data rawMessages Hbody Hjson).
  split; [| split].
  - intros ->. repeat split.
  - intros Hne u page more Hparse Hpage.
    destruct (String.eqb_spec (NextMessage.Next rawMessages) "") as [Heq | _];
      [contradiction |].
    rewrite Hparse, Hpage. reflexivity.
  - intros Hnext u Hparse Hquery.
    rewrite Hparse. rewrite Hnext. simpl String.eqb. cbv iota.
    unfold url.Query. rewrite Hquery. vm_compute. reflexivity.
Qed.

(** C10: once the body is decoded and [Next] is not empty, the call returns
    a page token exactly when [Next] parses as a URL whose query has at
    least one [page] parameter; it panics on the unguarded first-element
    access exactly when the URL parses and has none, and returns the parse
    error exactly when [Next] is not a URL. *)
Theorem GetNextPageCustomData_total_iff_page (reqData : RequestData.t)
    (res : Response) (data : string) (rawMessages : NextMessage.t) :
  Body res = ReadOk data ->
  json_Unmarshal data NextMessage.zero = (rawMessages, None) ->
  NextMessage.Next rawMessages <> "" ->
  ((exists token : string,
       GetNextPageCustomData reqData (Some res) = Returns (Some token, None)) <->
   (exists u : net_url.URL,
       net_url.Parse (NextMessage.Next rawMessages) = inr u /\
       url.index (url.Query u) "page" <> [])) /\
  ((exists msg : string,
       GetNextPageCustomData reqData (Some res) = Panics msg) <->
   (exists u : net_url.URL,
       net_url.Parse (NextMessage.Next rawMessages) = inr u /\
       url.index (url.Query u) "page" = [])) /\
  ((exists e : Error,
       GetNextPageCustomData reqData (Some res) = Returns (None, Some e)) <->
   (exists err : GoError,
       net_url.Parse (NextMessage.Next rawMessages) = inl err)).
Proof.
  intros Hbody Hjson Hne.
  rewrite (GetNextPageCustomData_decoded reqData res data rawMessages Hbody Hjson).
  destruct (String.eqb_spec (NextMessage.Next rawMessages) "") as [Heq | _];
    [contradiction |].
  destruct (net_url.Parse (NextMessage.Next rawMessages)) as [err | u].
  - split; [| split]; split.
    + intros [token Htok]. discriminate Htok.
    + intros [u [Hu _]]. discriminate Hu.
    + intros [msg Hmsg]. discriminate Hmsg.
    + intros [u [Hu _]]. discriminate Hu.
    + eauto.
    + eauto.
  - destruct (url.index (url.Query u) "page") as [| page more] eqn:Hpage.
    + split; [| split]; split.
      * intros [token Htok]. discriminate Htok.
      * intros [u' [Hu' Hp]]. injection Hu' as <-. congruence.
      * intros _. exists u. split; [reflexivity | exact Hpage].
      * eauto.
      * intros [e He]. discriminate He.
      * intros [err Herr]. discriminate Herr.
    + split; [| split]; split.
      * intros _. exists u. split; [reflexivity | rewrite Hpage; discriminate].
      * eauto.
      * intros [msg Hmsg]. discriminate Hmsg.
      * intros [u' [Hu' Hp]]. injection Hu' as <-. congruence.
      * intros [e He]. discriminate He.
      * intros [err Herr]. discriminate Herr.
Qed.
End NextPageProperties.

Lemma GetNextPageCustomData_cursor_witness :
  let next := "https://host/path?page=7&other=x" in
  let res := Fixtures.response 200 (Fixtures.next_body next) in
  let u := net_url.mkURL "https" "" "host" "/path" "page=7&other=x" "" in
  Body res = ReadOk (Fixtures.next_body next) /\
  Fixtures.unmarshal_next (Fixtures.next_body next) NextMessage.zero =
    (NextMessage.mk next, None) /\
  NextMessage.Next (NextMessage.mk next) <> "" /\
  Fixtures.parse_url next = inr u /\
  url.index (url.Query u) "page" = ["7"] /\
  @GetNextPageCustomData Fixtures.unmarshal_next Fixtures.parse_url
    Fixtures.page3 (Some res) = Returns (Some "7", None).
Proof.
  intros next res u.
  assert (Hbody : Body res = ReadOk (Fixtures.next_body next)) by reflexivity.
  assert (Hjson : Fixtures.unmarshal_next (Fixtures.next_body next) NextMessage.zero
                  = (NextMessage.mk next, None)) by (vm_compute; reflexivity).
  assert (Hne : NextMessage.Next (NextMessage.mk next) <> "") by discriminate.
  assert (Hparse : Fixtures.parse_url next = inr u) by (vm_compute; reflexivity).
  assert (Hpage : url.index (url.Query u) "page" = ["7"]) by (vm_compute; reflexivity).
  split; [exact Hbody | split; [exact Hjson | split; [exact Hne |]]].
  split; [exact Hparse | split; [exact Hpage |]].
  exact (proj1 (proj2 (@GetNextPageCustomData_cursor
                         Fixtures.unmarshal_next Fixtures.parse_url
                         Fixtures.page3 res _ _ Hbody Hjson))
           Hne u "7" [] Hparse Hpage).
Defined.

Lemma GetNextPageCustomData_total_iff_page_witness :
  let next := "https://host/path?other=x" in
  let res := Fixtures.response 200 (Fixtures.next_body next) in
  Body res = ReadOk (Fixtures.next_body next) /\
  Fixtures.unmarshal_next (Fixtures.next_body next) NextMessage.zero =
    (NextMessage.mk next, None) /\
  NextMessage.Next (NextMessage.mk next) <> "" /\
  ((exists msg : string,
       @GetNextPageCustomData Fixtures.unmarshal_next Fixtures.parse_url
         Fixtures.page3 (Some res) = Panics msg) <->
   (exists u : net_url.URL,
       Fixtures.parse_url next = inr u /\
       url.index (url.Query u) "page" = [])).
Proof.
  intros next res.
  assert (Hbody : Body res = ReadOk (Fixtures.next_body next)) by reflexivity.
  assert (Hjson : Fixtures.unmarshal_next (Fixtures.next_body next) NextMessage.zero
                  = (NextMessage.mk next, None)) by (vm_compute; reflexivity).
  assert (Hne : NextMessage.Next (NextMessage.mk next) <> "") by discriminate.
  split; [exact Hbody | split; [exact Hjson | split; [exact Hne |]]].
  exact (proj1 (proj2 (@GetNextPageCustomData_total_iff_page
                         Fixtures.unmarshal_next Fixtures.parse_url
                         Fixtures.page3 res _ _ Hbody Hjson Hne))).
Defined.

Example GetNextPageCustomData_empty_next :
  @GetNextPageCustomData Fixtures.unmarshal_next Fixtures.parse_url
    Fixtures.page3 (Some (Fixtures.response 200 (Fixtures.next_body ""))) =
  Returns (Some "", Some ErrFinishCollect).
Proof. vm_compute. reflexivity. Qed.

Example GetNextPageCustomData_absent_next :
  @GetNextPageCustomData Fixtures.unmarshal_next Fixtures.parse_url
    Fixtures.page3 (Some (Fixtures.response 200 "{}")) =
  Returns (Some "", Some ErrFinishCollect).
Proof. vm_compute. reflexivity. Qed.

Example GetNextPageCustomData_no_page_parameter :
  @GetNextPageCustomData Fixtures.unmarshal_next Fixtures.parse_url
    Fixtures.page3
    (Some (Fixtures.response 200 (Fixtures.next_body "https://host/path?other=x"))) =
  Panics index_out_of_range.
Proof. vm_compute. reflexivity. Qed.

Example GetNextPageCustomData_not_a_url :
  @GetNextPageCustomData Fixtures.unmarshal_next Fixtures.parse_url
    Fixtures.page3
    (Some (Fixtures.response 200 (Fixtures.next_body ":path?page=2"))) =
  Returns (None, Some (Converted "missing protocol scheme")).
Proof. vm_compute. reflexivity. Qed.

(** ** Seed iterators *)

Lemma Cursor_selects (db : gmap string (list (gmap string dal.Value)))
    (clauses : list dal.Clause) (table alias f col : string)
    (atoms : list dal.Atom) (rows : list (gmap string dal.Value)) :
  dal.from_of clauses None = Some (table, alias) ->
  dal.select_of clauses None = Some f ->
  dal.resolve alias f = Some col ->
  dal.where_of alias clauses = Some atoms ->
  db !! table = Some rows ->
  dal.Cursor db clauses =
    inr (map (dal.project col) (List.filter (dal.satisfies atoms) rows)).
Proof.
  intros Hfrom Hselect Hcol Hwhere Hrows.
  unfold dal.Cursor, dal.matching.
  rewrite Hfrom, Hselect, Hcol, Hrows, Hwhere. reflexivity.
Qed.

Lemma satisfies_selected (params : BitbucketServerApiParams)
    (restriction : option Time) (row : gmap string dal.Value) :
  dal.satisfies (scope_atoms params ++ restriction_atoms restriction) row =
  selected params restriction row.
Proof.
  unfold dal.satisfies, selected, in_scope, updated_after, scope_atoms.
  rewrite forallb_app. unfold dal.holds. cbn [forallb dal.cmp dal.column dal.arg].
  f_equal.
  - destruct (row !! "repo_id") as [[| r | n | t] |];
      destruct (row !! "connection_id") as [[| r' | n' | t'] |];
      cbn; rewrite ?andb_true_r, ?andb_false_r; reflexivity.
  - destruct restriction as [since |]; [| reflexivity].
    cbn [restriction_atoms forallb dal.cmp dal.column dal.arg].
    destruct (row !! "bitbucket_updated_at") as [[| r | n | t] |];
      cbn; rewrite ?andb_true_r; reflexivity.
Qed.

Lemma filter_satisfies_selected (params : BitbucketServerApiParams)
    (restriction : option Time) (rows : list (gmap string dal.Value)) :
  List.filter
    (dal.satisfies (scope_atoms params ++ restriction_atoms restriction)) rows =
  List.filter (selected params restriction) rows.
Proof.
  apply List.filter_ext. intros row. apply satisfies_selected.
Qed.

Ltac iterator_selects :=
  let db := fresh "db" in
  let data := fresh "data" in
  let inc := fresh "inc" in
  let since := fresh "since" in
  let rows := fresh "rows" in
  let Hrows := fresh "Hrows" in
  intros [db [data]] [inc since] rows Hrows; simpl in Hrows;
  unfold yields, restriction_of; cbn [IsIncremental Since GetDal GetData Options];
  rewrite <- filter_satisfies_selected;
  destruct inc; [destruct since as [since |] |];
  cbn [IsIncremental Since GetDal GetData Options app];
  (erewrite Cursor_selects;
   [ reflexivity
   | vm_compute; reflexivity
   | vm_compute; reflexivity
   | vm_compute; reflexivity
   | vm_compute; reflexivity
   | exact Hrows ]).

Lemma GetBranchesIterator_selects (ctx : SubTaskContext)
    (st : ApiCollectorStateManager) (rows : list (gmap string dal.Value)) :
  GetDal ctx !! "_tool_bitbucket_server_branches" = Some rows ->
  yields (GetBranchesIterator ctx st) "branch" BitbucketServerBranchInput
    (List.filter (selected (Options (GetData ctx)) (restriction_of st)) rows).
Proof.
  revert ctx st rows. unfold GetBranchesIterator, NewDalCursorIterator.
  iterator_selects.
Qed.

Lemma GetCommitsIterator_selects (ctx : SubTaskContext)
    (st : ApiCollectorStateManager) (rows : list (gmap string dal.Value)) :
  GetDal ctx !! "_tool_bitbucket_server_commits" = Some rows ->
  yields (GetCommitsIterator ctx st) "commit_sha" BitbucketServerCommitInput
    (List.filter (selected (Options (GetData ctx)) (restriction_of st)) rows).
Proof.
  revert ctx st rows. unfold GetCommitsIterator, NewDalCursorIterator.
  iterator_selects.
Qed.

Lemma GetPullRequestsIterator_selects (ctx : SubTaskContext)
    (st : ApiCollectorStateManager) (rows : list (gmap string dal.Value)) :
  GetDal ctx !! "_tool_bitbucket_server_pull_requests" = Some rows ->
  yields (GetPullRequestsIterator ctx st) "bitbucket_id" BitbucketServerInput
    (List.filter (selected (Options (GetData ctx)) (restriction_of st)) rows).
Proof.
  revert ctx st rows. unfold GetPullRequestsIterator, NewDalCursorIterator.
  iterator_selects.
Qed.

Lemma seed_source_selects (src : SeedSource) (ctx : SubTaskContext)
    (st : ApiCollectorStateManager) (rows : list (gmap string dal.Value)) :
  In src seed_sources ->
  GetDal ctx !! table src = Some rows ->
  yields (constructor src ctx st) (seed_column src) (seed_type src)
    (List.filter (selected (Options (GetData ctx)) (restriction_of st)) rows).
Proof.
  intros Hsrc Hrows.
  destruct Hsrc as [<- | [<- | [<- | []]]]; simpl in *.
  - by apply GetBranchesIterator_selects.
  - by apply GetCommitsIterator_selects.
  - by apply GetPullRequestsIterator_selects.
Qed.

(** C5: each of the three seed iterators (branches, commits, pull
    requests) yields the rows of its table that lie in the scope of the
    run; it keeps only those updated strictly after the watermark when
    [IsIncremental] is true and [Since] is set, and all of them otherwise. *)
Theorem iterators_restrict_exactly_when_incremental
    (src : SeedSource) (ctx : SubTaskContext) (st : ApiCollectorStateManager)
    (rows : list (gmap string dal.Value)) :
  In src seed_sources ->
  GetDal ctx !! table src = Some rows ->
  (forall since : Time,
      IsIncremental st = true -> Since st = Some since ->
      yields (constructor src ctx st) (seed_column src) (seed_type src)
        (List.filter
           (fun row => in_scope (Options (GetData ctx)) row
                       && updated_after since row) rows)) /\
  (IsIncremental st = false \/ Since st = None ->
   yields (constructor src ctx st) (seed_column src) (seed_type src)
     (List.filter (in_scope (Options (GetData ctx))) rows)).
Proof.
  intros Hsrc Hrows.
  pose proof (seed_source_selects src ctx st rows Hsrc Hrows) as Hyields.
  unfold restriction_of in Hyields. split.
  - intros since Hinc Hsince. rewrite Hinc, Hsince in Hyields. exact Hyields.
  - intros Hfull.
    assert (Hnone : (if IsIncremental st then Since st else None) = None).
    { destruct Hfull as [-> | Hnil]; [reflexivity |].
      rewrite Hnil. by destruct (IsIncremental st). }
    rewrite Hnone in Hyields.
    erewrite List.filter_ext; [exact Hyields |].
    intros row. unfold selected. by rewrite andb_true_r.
Qed.

Lemma iterators_restrict_exactly_when_incremental_witness :
  let src := mkSource GetBranchesIterator "_tool_bitbucket_server_branches"
               "branch" BitbucketServerBranchInput in
  let st := mkState true (Some (mkTime 20 0 0)) in
  In src seed_sources /\
  GetDal (Fixtures.run 1 "P/r") !! table src = Some Fixtures.branches /\
  IsIncremental st = true /\
  Since st = Some (mkTime 20 0 0) /\
  yields (GetBranchesIterator (Fixtures.run 1 "P/r") st)
    "branch" BitbucketServerBranchInput
    (List.filter
       (fun row => in_scope (mkParams 1 "P/r") row
                   && updated_after (mkTime 20 0 0) row) Fixtures.branches).
Proof.
  intros src st.
  assert (Hsrc : In src seed_sources) by (left; reflexivity).
  assert (Hrows : GetDal (Fixtures.run 1 "P/r") !! table src
                  = Some Fixtures.branches) by (vm_compute; reflexivity).
  split; [exact Hsrc | split; [exact Hrows | split; [reflexivity |]]].
  split; [reflexivity |].
  exact (proj1 (iterators_restrict_exactly_when_incremental
                  src (Fixtures.run 1 "P/r") st Fixtures.branches Hsrc Hrows)
           (mkTime 20 0 0) eq_refl eq_refl).
Defined.

Lemma in_scope_params (p1 p2 : BitbucketServerApiParams)
    (row : gmap string dal.Value) :
  in_scope p1 row = true -> in_scope p2 row = true -> p1 = p2.
Proof.
  unfold in_scope.
  destruct (row !! "repo_id") as [[| r | n | t] |]; try discriminate.
  destruct (row !! "connection_id") as [[| r' | n' | t'] |]; try discriminate.
  intros [Hr1 Hc1]%andb_true_iff [Hr2 Hc2]%andb_true_iff.
  apply String.eqb_eq in Hr1, Hr2. apply Z.eqb_eq in Hc1, Hc2.
  destruct p1, p2; simpl in *. congruence.
Qed.

Lemma selected_in_scope (params : BitbucketServerApiParams)
    (restriction : option Time) (row : gmap string dal.Value) :
  selected params restriction row = true -> in_scope params row = true.
Proof. unfold selected. by intros [H _]%andb_true_iff. Qed.

Lemma filter_selected_scope (params : BitbucketServerApiParams)
    (restriction : option Time) (rows : list (gmap string dal.Value)) :
  List.filter (selected params restriction) rows =
  List.filter
    (fun row => match restriction with
                | Some since => updated_after since row
                | None => true
                end)
    (List.filter (in_scope params) rows).
Proof.
  induction rows as [| row rows IH]; [reflexivity |].
  cbn [List.filter]. unfold selected at 1.
  destruct (in_scope params row); cbn [andb List.filter]; rewrite IH; reflexivity.
Qed.

(** C6: the seed rows an iterator observes are rows of its table whose
    [repo_id] and [connection_id] are the run's own [FullName] and
    [ConnectionId]; two runs with different parameters observe no row in
    common, and a database that differs only in rows outside the scope of
    a run yields the same iterator for that run. *)
Theorem iterators_scoped_by_params
    (src : SeedSource) (db : gmap string (list (gmap string dal.Value)))
    (rows : list (gmap string dal.Value))
    (p1 p2 : BitbucketServerApiParams) (st1 st2 : ApiCollectorStateManager) :
  In src seed_sources ->
  db !! table src = Some rows ->
  p1 <> p2 ->
  (exists observed1 observed2 : list (gmap string dal.Value),
      yields (constructor src (mkContext db (mkTaskData p1)) st1)
        (seed_column src) (seed_type src) observed1 /\
      yields (constructor src (mkContext db (mkTaskData p2)) st2)
        (seed_column src) (seed_type src) observed2 /\
      (forall row, In row observed1 -> In row rows /\ in_scope p1 row = true) /\
      (forall row, In row observed2 -> In row rows /\ in_scope p2 row = true) /\
      (forall row, In row observed1 -> ~ In row observed2)) /\
  (forall (db' : gmap string (list (gmap string dal.Value)))
          (rows' : list (gmap string dal.Value)),
      db' !! table src = Some rows' ->
      List.filter (in_scope p1) rows' = List.filter (in_scope p1) rows ->
      constructor src (mkContext db' (mkTaskData p1)) st1 =
      constructor src (mkContext db (mkTaskData p1)) st1).
Proof.
  intros Hsrc Hrows Hne. split.
  - exists (List.filter (selected p1 (restriction_of st1)) rows),
           (List.filter (selected p2 (restriction_of st2)) rows).
    assert (Hin : forall p r row,
               In row (List.filter (selected p r) rows) ->
               In row rows /\ in_scope p row = true).
    { intros p r row [Hrow Hsel]%List.filter_In.
      split; [exact Hrow | by apply (selected_in_scope p r)]. }
    split;
      [exact (seed_source_selects src (mkContext db (mkTaskData p1)) st1 rows
                Hsrc Hrows) |].
    split;
      [exact (seed_source_selects src (mkContext db (mkTaskData p2)) st2 rows
                Hsrc Hrows) |].
    split; [apply Hin | split; [apply Hin |]].
    intros row H1 H2. apply Hne.
    apply (in_scope_params p1 p2 row).
    + exact (proj2 (Hin _ _ _ H1)).
    + exact (proj2 (Hin _ _ _ H2)).
  - intros db' rows' Hrows' Hsame.
    pose proof (seed_source_selects src (mkContext db' (mkTaskData p1)) st1 rows'
                  Hsrc Hrows') as H'.
    pose proof (seed_source_selects src (mkContext db (mkTaskData p1)) st1 rows
                  Hsrc Hrows) as H.
    unfold yields in H, H'. cbn [GetData Options] in H, H'.
    rewrite H, H'. rewrite !filter_selected_scope, Hsame. reflexivity.
Qed.

Lemma iterators_scoped_by_params_witness :
  let src := mkSource GetBranchesIterator "_tool_bitbucket_server_branches"
               "branch" BitbucketServerBranchInput in
  let p1 := mkParams 1 "P/r" in
  let p2 := mkParams 1 "P/q" in
  let st := mkState false None in
  In src seed_sources /\
  Fixtures.db !! table src = Some Fixtures.branches /\
  p1 <> p2 /\
  exists observed1 observed2 : list (gmap string dal.Value),
    yields (GetBranchesIterator (Fixtures.run 1 "P/r") st)
      "branch" BitbucketServerBranchInput observed1 /\
    yields (GetBranchesIterator (Fixtures.run 1 "P/q") st)
      "branch" BitbucketServerBranchInput observed2 /\
    (forall row, In row observed1 ->
                 In row Fixtures.branches /\ in_scope p1 row = true) /\
    (forall row, In row observed2 ->
                 In row Fixtures.branches /\ in_scope p2 row = true) /\
    (forall row, In row observed1 -> ~ In row observed2).
Proof.
  intros src p1 p2 st.
  assert (Hsrc : In src seed_sources) by (left; reflexivity).
  assert (Hrows : Fixtures.db !! table src = Some Fixtures.branches)
    by (vm_compute; reflexivity).
  assert (Hne : p1 <> p2) by discriminate.
  split; [exact Hsrc | split; [exact Hrows | split; [exact Hne |]]].
  exact (proj1 (iterators_scoped_by_params src Fixtures.db Fixtures.branches
                  p1 p2 st st Hsrc Hrows Hne)).
Defined.

Example branches_other_repository :
  GetBranchesIterator (Fixtures.run 1 "P/q") (mkState false None) =
  (Some (mkIterator [ {[ "branch" := dal.VString "main" ]} ]
           BitbucketServerBranchInput), None).
Proof. vm_compute. reflexivity. Qed.

Example commits_table_missing :
  GetCommitsIterator (Fixtures.run 1 "P/r") (mkState false None) =
  (None, Some (New Default "no such table: _tool_bitbucket_server_commits")).
Proof. vm_compute. reflexivity. Qed.

(** * Further properties of the helpers *)

(** ** Query builders, continued *)

Lemma single_valued_empty : single_valued ∅.
Proof. intros key values H. rewrite lookup_empty in H. discriminate H. Qed.

Lemma single_valued_Set (key value : string) (query : gmap string (list string)) :
  single_valued query -> single_valued (url.Set_ key value query).
Proof.
  intros Hq k values. unfold url.Set_. rewrite lookup_insert.
  case_decide as Hk.
  - intros [= <-]. by exists value.
  - apply Hq.
Qed.

(** X1: the field-selection variant returns, without error, the three base
    parameters and fields=<projection>, and nothing else: it sets neither
    sort nor q. *)
Theorem GetQueryFields_exactly_four (fields : string)
    (reqData : RequestData.t) (pager : Pager.t) :
  RequestData.Pager reqData = Some pager ->
  exists query : gmap string (list string),
    GetQueryFields fields reqData = Returns (query, None) /\
    query !! "state" = Some ["all"] /\
    query !! "page" = Some [GoInt.Sprint (Pager.Page pager)] /\
    query !! "pagelen" = Some [GoInt.Sprint (Pager.Size pager)] /\
    query !! "fields" = Some [fields] /\
    query !! "sort" = None /\
    query !! "q" = None /\
    dom query = ({[ "state"; "page"; "pagelen"; "fields" ]} : gset string).
Proof.
  intros Hpager. unfold GetQueryFields, GetQuery. rewrite Hpager. simpl.
  eexists. split; [reflexivity |].
  repeat split; query_lookup.
Qed.

Lemma GetQueryFields_exactly_four_witness :
  RequestData.Pager Fixtures.page3 = Some (Pager.mk 3 0 100) /\
  exists query : gmap string (list string),
    GetQueryFields "values.id" Fixtures.page3 = Returns (query, None) /\
    query !! "state" = Some ["all"] /\
    query !! "page" = Some ["3"] /\
    query !! "pagelen" = Some ["100"] /\
    query !! "fields" = Some ["values.id"] /\
    query !! "sort" = None /\
    query !! "q" = None /\
    dom query = ({[ "state"; "page"; "pagelen"; "fields" ]} : gset string).
Proof.
  split; [reflexivity |].
  apply (GetQueryFields_exactly_four "values.id" Fixtures.page3 (Pager.mk 3 0 100)).
  reflexivity.
Defined.

(** X2: the incremental variant is the field-selection variant with sort
    and, under a watermark, q added: the two queries agree on every other
    key, so the base parameters and the projection are untouched. *)
Theorem GetQueryCreatedAndUpdated_extends_GetQueryFields (fields : string)
    (st : ApiCollectorStateManager) (reqData : RequestData.t) (pager : Pager.t) :
  RequestData.Pager reqData = Some pager ->
  exists query base : gmap string (list string),
    GetQueryCreatedAndUpdated fields st reqData = Returns (query, None) /\
    GetQueryFields fields reqData = Returns (base, None) /\
    (forall key : string, key <> "sort" -> key <> "q" -> query !! key = base !! key) /\
    dom query =
      dom base ∪ {[ "sort" ]} ∪
      (match Since st with Some _ => {[ "q" ]} | None => ∅ end : gset string).
Proof.
  intros Hpager.
  unfold GetQueryCreatedAndUpdated, GetQueryFields, GetQuery.
  rewrite Hpager. simpl.
  eexists. eexists. split; [reflexivity |]. split; [reflexivity |]. split.
  - intros key Hsort Hq.
    destruct (Since st); unfold url.Set_;
      rewrite ?(lookup_insert_ne _ "q" key) by congruence;
      rewrite (lookup_insert_ne _ "sort" key) by congruence; reflexivity.
  - destruct (Since st); unfold url.Set_; rewrite !dom_insert_L; set_solver.
Qed.

Lemma GetQueryCreatedAndUpdated_extends_GetQueryFields_witness :
  RequestData.Pager Fixtures.page3 = Some (Pager.mk 3 0 100) /\
  exists query base : gmap string (list string),
    GetQueryCreatedAndUpdated "values.id" (mkState true (Some Fixtures.t2023))
      Fixtures.page3 = Returns (query, None) /\
    GetQueryFields "values.id" Fixtures.page3 = Returns (base, None) /\
    (forall key : string, key <> "sort" -> key <> "q" -> query !! key = base !! key) /\
    dom query = dom base ∪ {[ "sort" ]} ∪ ({[ "q" ]} : gset string).
Proof.
  split; [reflexivity |].
  apply (GetQueryCreatedAndUpdated_extends_GetQueryFields "values.id"
           (mkState true (Some Fixtures.t2023)) Fixtures.page3 (Pager.mk 3 0 100)).
  reflexivity.
Defined.

(** X3: whatever the request and the state, a query returned by any of the
    three builders holds exactly one value under each of its keys: the
    builders only ever replace, they never add a second value. *)
Theorem query_builders_single_valued (fields : string)
    (st : ApiCollectorStateManager) (reqData : RequestData.t) :
  (forall query err, GetQuery reqData = Returns (query, err) ->
                     single_valued query) /\
  (forall query err, GetQueryFields fields reqData = Returns (query, err) ->
                     single_valued query) /\
  (forall query err,
      GetQueryCreatedAndUpdated fields st reqData = Returns (query, err) ->
      single_valued query).
Proof.
  unfold GetQueryCreatedAndUpdated, GetQueryFields, GetQuery.
  destruct (RequestData.Pager reqData) as [pager |]; simpl;
    (split; [| split]); intros query err [= <- _];
    repeat first [ apply single_valued_Set | apply single_valued_empty ].
  destruct (Since st); repeat first [ apply single_valued_Set | apply single_valued_empty ].
Qed.

Lemma Sprint_injective (a b : Z) : GoInt.Sprint a = GoInt.Sprint b -> a = b.
Proof.
  unfold GoInt.Sprint. intros Heq.
  assert (Hnil : forall z : Z, Z.to_int z <> Decimal.Pos Decimal.Nil /\
                               Z.to_int z <> Decimal.Neg Decimal.Nil).
  { intros z. split; intros Hz;
      pose proof (f_equal Z.of_int Hz) as Hz0;
      rewrite DecimalZ.of_to in Hz0; subst z; discriminate Hz. }
  assert (Hint : Some (Z.to_int a) = Some (Z.to_int b)).
  { rewrite <- (NilZero.isi (Z.to_int a)) by apply Hnil.
    rewrite <- (NilZero.isi (Z.to_int b)) by apply Hnil.
    by rewrite Heq. }
  injection Hint as Hint.
  rewrite <- (DecimalZ.of_to a), <- (DecimalZ.of_to b). by rewrite Hint.
Qed.

(** X4: the base query determines the page descriptor: two requests whose
    base queries are equal ask for the same page number and the same page
    size (the pager's [Skip] is never read). *)
Theorem GetQuery_determines_page (reqData1 reqData2 : RequestData.t)
    (pager1 pager2 : Pager.t) :
  RequestData.Pager reqData1 = Some pager1 ->
  RequestData.Pager reqData2 = Some pager2 ->
  GetQuery reqData1 = GetQuery reqData2 ->
  Pager.Page pager1 = Pager.Page pager2 /\ Pager.Size pager1 = Pager.Size pager2.
Proof.
  intros H1 H2. unfold GetQuery. rewrite H1, H2. intros Heq.
  pose (read := fun (key : string)
                    (o : Outcome (gmap string (list string) * option Error)) =>
                  match o with
                  | Returns (query, _) => query !! key
                  | Panics _ => None
                  end).
  split; apply Sprint_injective.
  - pose proof (f_equal (read "page") Heq) as Hpage. unfold read in Hpage.
    revert Hpage. query_lookup. by intros [= ->].
  - pose proof (f_equal (read "pagelen") Heq) as Hlen. unfold read in Hlen.
    revert Hlen. query_lookup. by intros [= ->].
Qed.

Lemma GetQuery_determines_page_witness :
  let other := RequestData.mk (Some (Pager.mk 3 200 100)) in
  RequestData.Pager Fixtures.page3 = Some (Pager.mk 3 0 100) /\
  RequestData.Pager other = Some (Pager.mk 3 200 100) /\
  GetQuery Fixtures.page3 = GetQuery other /\
  Pager.Page (Pager.mk 3 0 100) = Pager.Page (Pager.mk 3 200 100) /\
  Pager.Size (Pager.mk 3 0 100) = Pager.Size (Pager.mk 3 200 100).
Proof.
  intros other.
  assert (H1 : RequestData.Pager Fixtures.page3 = Some (Pager.mk 3 0 100))
    by reflexivity.
  assert (H2 : RequestData.Pager other = Some (Pager.mk 3 200 100)) by reflexivity.
  assert (Heq : GetQuery Fixtures.page3 = GetQuery other) by reflexivity.
  split; [exact H1 | split; [exact H2 | split; [exact Heq |]]].
  exact (GetQuery_determines_page Fixtures.page3 other _ _ H1 H2 Heq).
Defined.

Lemma query_builders_single_valued_witness :
  exists query : gmap string (list string),
    GetQueryCreatedAndUpdated "values.id" (mkState true (Some Fixtures.t2023))
      Fixtures.page3 = Returns (query, None) /\
    single_valued query.
Proof.
  eexists. split; [reflexivity |].
  exact (proj2 (proj2 (query_builders_single_valued "values.id"
                         (mkState true (Some Fixtures.t2023)) Fixtures.page3))
           _ None eq_refl).
Defined.

(** ** Response decoding, continued *)

Section DecodeResponseOutcomes.
Context {M : Type} `{!JsonUnmarshal M}.

(** X5: [decodeResponse] returns a nil error exactly when the response is
    present, its body can be read and the body unmarshals into the message;
    the message it leaves is then the unmarshalled one. *)
Theorem decodeResponse_succeeds_iff (res : option Response) (message message' : M) :
  decodeResponse res message = Returns (message', None) <->
  exists (r : Response) (data : string),
    res = Some r /\ Body r = ReadOk data /\
    json_Unmarshal data message = (message', None).
Proof.
  unfold decodeResponse. split.
  - destruct res as [r |]; [| discriminate].
    destruct (Body r) as [data | cause] eqn:Hbody.
    + destruct (json_Unmarshal data message) as [m err] eqn:Hjson.
      destruct err as [cause |]; simpl.
      * destruct (RequestURL r); discriminate.
      * intros [= <-]. exists r, data. by rewrite Hjson.
    + destruct (RequestURL r); discriminate.
  - intros (r & data & -> & Hbody & Hjson). by rewrite Hbody, Hjson.
Qed.

(** X6: an error returned by [decodeResponse] is always a created error of
    type Default, never one of the two signals of the engine: a decode
    failure cannot be taken for the end of a collection. *)
Theorem decodeResponse_error_is_default (res : option Response)
    (message message' : M) (e : Error) :
  decodeResponse res message = Returns (message', Some e) ->
  type_of e = Some Default /\ is_signal e = false.
Proof.
  unfold decodeResponse.
  destruct res as [r |]; [| by intros [= _ <-]].
  destruct (Body r) as [data | cause].
  - destruct (json_Unmarshal data message) as [m err].
    destruct err as [cause |]; simpl; [| discriminate].
    destruct (RequestURL r); [by intros [= _ <-] | discriminate].
  - destruct (RequestURL r); [by intros [= _ <-] | discriminate].
Qed.
End DecodeResponseOutcomes.

Lemma decodeResponse_error_is_default_witness :
  @decodeResponse _ Fixtures.unmarshal_next
    (Some (Fixtures.response 200 "<html>")) NextMessage.zero =
    Returns (NextMessage.zero,
             Some (Wrap Default
                     (Converted "invalid character looking for beginning of value")
                     ("error decoding response from "
                      +:+ "https://host/rest/api/1.0/projects/P/repos/r/commits"
                      +:+ ": raw response: " +:+ "<html>"))) /\
  type_of (Wrap Default
             (Converted "invalid character looking for beginning of value")
             ("error decoding response from "
              +:+ "https://host/rest/api/1.0/projects/P/repos/r/commits"
              +:+ ": raw response: " +:+ "<html>")) = Some Default /\
  is_signal (Wrap Default
               (Converted "invalid character looking for beginning of value")
               ("error decoding response from "
                +:+ "https://host/rest/api/1.0/projects/P/repos/r/commits"
                +:+ ": raw response: " +:+ "<html>")) = false.
Proof.
  assert (H : @decodeResponse _ Fixtures.unmarshal_next
                (Some (Fixtures.response 200 "<html>")) NextMessage.zero =
              Returns (NextMessage.zero,
                       Some (Wrap Default
                               (Converted "invalid character looking for beginning of value")
                               ("error decoding response from "
                                +:+ "https://host/rest/api/1.0/projects/P/repos/r/commits"
                                +:+ ": raw response: " +:+ "<html>"))))
    by (vm_compute; reflexivity).
  split; [exact H |].
  exact (@decodeResponse_error_is_default _ Fixtures.unmarshal_next _ _ _ _ H).
Defined.

Section DecoderCallers.
Context `{!JsonUnmarshal NextMessage.t} `{!JsonUnmarshal ValuesMessage.t}
        `{!net_url.Parser}.

Lemma decodeResponse_cases {M : Type} `{!JsonUnmarshal M}
    (res : option Response) (message : M) :
  (exists msg, decodeResponse res message = Panics msg) \/
  (exists message' e, decodeResponse res message = Returns (message', Some e) /\
                      type_of e = Some Default) \/
  (exists message' r data,
      decodeResponse res message = Returns (message', None) /\
      res = Some r /\ Body r = ReadOk data /\
      json_Unmarshal data message = (message', None)).
Proof.
  unfold decodeResponse.
  destruct res as [r |]; [| right; left; eauto].
  destruct (Body r) as [data | cause] eqn:Hbody.
  - destruct (json_Unmarshal data message) as [m err] eqn:Hjson.
    destruct err as [cause |]; simpl.
    + destruct (RequestURL r); [right; left; eauto | left; eauto].
    + right; right. exists m, r, data. repeat split; assumption.
  - destruct (RequestURL r); [right; left; eauto | left; eauto].
Qed.

(** X7: [GetNextPageCustomData] returns the end-of-collection signal only
    for a response that decoded with an empty [Next], and then with the
    empty token: neither a missing response, nor a decode failure, nor a
    link that does not parse ends the collection of a seed. *)
Theorem GetNextPageCustomData_finish_iff (reqData : RequestData.t)
    (res : option Response) (value : option string) :
  GetNextPageCustomData reqData res = Returns (value, Some ErrFinishCollect) <->
  value = Some "" /\
  exists (r : Response) (data : string) (rawMessages : NextMessage.t),
    res = Some r /\ Body r = ReadOk data /\
    json_Unmarshal data NextMessage.zero = (rawMessages, None) /\
    NextMessage.Next rawMessages = "".
Proof.
  split.
  - unfold GetNextPageCustomData.
    destruct (decodeResponse_cases res NextMessage.zero)
      as [[msg ->] | [(m & e & -> & Hty) | (m & r & data & -> & -> & Hbody & Hjson)]];
      simpl.
    + discriminate.
    + intros [= _ ->]. discriminate Hty.
    + destruct (String.eqb_spec (NextMessage.Next m) "") as [Hnext | _].
      * intros [= <-]. split; [reflexivity |]. exists r, data, m.
        repeat split; assumption.
      * destruct (net_url.Parse (NextMessage.Next m)) as [err | u];
          [discriminate |].
        destruct (url.index (url.Query u) "page"); discriminate.
  - intros (-> & r & data & m & -> & Hbody & Hjson & Hnext).
    unfold GetNextPageCustomData, decodeResponse.
    rewrite Hbody, Hjson. simpl. rewrite Hnext. reflexivity.
Qed.

(** X8: [GetRawMessageFromResponse] returns the decoded [Values] verbatim
    exactly when the response decodes; when it returns an error the
    records are the nil slice and the error is a Default error, never a
    signal. *)
Theorem GetRawMessageFromResponse_values (res : option Response) :
  (forall values : list string,
      GetRawMessageFromResponse res = Returns (values, None) <->
      exists (r : Response) (data : string) (rawMessages : ValuesMessage.t),
        res = Some r /\ Body r = ReadOk data /\
        json_Unmarshal data ValuesMessage.zero = (rawMessages, None) /\
        values = ValuesMessage.Values rawMessages) /\
  (forall (values : list string) (e : Error),
      GetRawMessageFromResponse res = Returns (values, Some e) ->
      values = [] /\ type_of e = Some Default /\ is_signal e = false).
Proof.
  unfold GetRawMessageFromResponse. split.
  - intros values. split.
    + destruct (decodeResponse_cases res ValuesMessage.zero)
        as [[msg ->] | [(m & e & -> & Hty) | (m & r & data & -> & -> & Hbody & Hjson)]];
        simpl; try discriminate.
      intros [= <-]. exists r, data, m. repeat split; assumption.
    + intros (r & data & m & -> & Hbody & Hjson & ->).
      unfold decodeResponse. by rewrite Hbody, Hjson.
  - intros values e.
    destruct (decodeResponse_cases res ValuesMessage.zero)
      as [[msg ->] | [(m & e' & -> & Hty) | (m & r & data & -> & _)]];
      simpl; try discriminate.
    intros [= <- <-]. split; [reflexivity |]. split; [exact Hty |].
    by destruct e'.
Qed.
End DecoderCallers.

(** ** Page count, continued *)

Section TotalPagesProperties.
Context `{!ApiUnmarshal}.

Lemma GetTotalPagesFromResponse_nonneg_value (res : option Response)
    (args : ApiCollectorArgs) (body : BitbucketServerPagination.t) :
  UnmarshalResponse res BitbucketServerPagination.zero = (body, None) ->
  GoInt.in_range (BitbucketServerPagination.Size body) ->
  0 <= BitbucketServerPagination.Size body ->
  0 < PageSize args ->
  GetTotalPagesFromResponse res args =
    Returns (BitbucketServerPagination.Size body / PageSize args
             + (if BitbucketServerPagination.Size body mod PageSize args >? 0
                then 1 else 0), None).
Proof.
  intros Hbody Hsize Hs Hp.
  unfold GetTotalPagesFromResponse. rewrite Hbody.
  set (size := BitbucketServerPagination.Size body) in *.
  set (pageSize := PageSize args) in *.
  destruct (Z.eqb_spec pageSize 0) as [Hz | _]; [lia |].
  rewrite Z.quot_div_nonneg, Z.rem_mod_nonneg by lia.
  pose proof (Z.div_mod size pageSize ltac:(lia)) as Hdm.
  pose proof (Z.mod_pos_bound size pageSize Hp) as Hr.
  assert (Hq : 0 <= size / pageSize) by (apply Z.div_pos; lia).
  assert (Hle : size / pageSize <= size) by (apply Z.div_le_upper_bound; nia).
  unfold GoInt.in_range, GoInt.min_int, GoInt.max_int in Hsize.
  rewrite (wrap_in_range (size / pageSize))
    by (unfold GoInt.in_range, GoInt.min_int, GoInt.max_int; lia).
  destruct (Z.gtb_spec (size mod pageSize) 0) as [Hpos | Hzero].
  - rewrite wrap_in_range
      by (unfold GoInt.in_range, GoInt.min_int, GoInt.max_int; nia).
    reflexivity.
  - by rewrite Z.add_0_r.
Qed.

(** X9: [GetTotalPagesFromResponse] panics exactly when the envelope
    decodes and the page size is zero (integer division by zero); when the
    envelope does not decode it returns zero pages with the decoder's error,
    whatever the page size. *)
Theorem GetTotalPagesFromResponse_panics_iff (res : option Response)
    (args : ApiCollectorArgs) :
  ((exists msg : string, GetTotalPagesFromResponse res args = Panics msg) <->
   (exists body : BitbucketServerPagination.t,
       UnmarshalResponse res BitbucketServerPagination.zero = (body, None) /\
       PageSize args = 0)) /\
  (forall (body : BitbucketServerPagination.t) (err : Error),
      UnmarshalResponse res BitbucketServerPagination.zero = (body, Some err) ->
      GetTotalPagesFromResponse res args = Returns (0, Some err)).
Proof.
  unfold GetTotalPagesFromResponse.
  destruct (UnmarshalResponse res BitbucketServerPagination.zero)
    as [body [err |]].
  - split; [split |].
    + intros [msg Hmsg]. discriminate Hmsg.
    + intros (body' & [= _] & _).
    + intros body' err' [= _ ->]. reflexivity.
  - split; [split |].
    + intros [msg Hmsg].
      destruct (Z.eqb_spec (PageSize args) 0) as [Hz | _]; [| discriminate Hmsg].
      exists body. by split.
    + intros (body' & _ & ->). simpl. eauto.
    + intros body' err' [= _].
Qed.

(** X10: for a non-negative [Size] and a positive [PageSize] the page count
    lies between zero and [Size], and it is zero exactly when [Size] is
    zero: only an empty collection ends the pagination at once. *)
Theorem GetTotalPagesFromResponse_zero_iff_empty (res : option Response)
    (args : ApiCollectorArgs) (body : BitbucketServerPagination.t) :
  UnmarshalResponse res BitbucketServerPagination.zero = (body, None) ->
  GoInt.in_range (BitbucketServerPagination.Size body) ->
  0 <= BitbucketServerPagination.Size body ->
  0 < PageSize args ->
  exists pages : Z,
    GetTotalPagesFromResponse res args = Returns (pages, None) /\
    0 <= pages <= BitbucketServerPagination.Size body /\
    (pages = 0 <-> BitbucketServerPagination.Size body = 0).
Proof.
  intros Hbody Hsize Hs Hp.
  rewrite (GetTotalPagesFromResponse_nonneg_value res args body Hbody Hsize Hs Hp).
  set (size := BitbucketServerPagination.Size body) in *.
  set (pageSize := PageSize args) in *.
  pose proof (Z.div_mod size pageSize ltac:(lia)) as Hdm.
  pose proof (Z.mod_pos_bound size pageSize Hp) as Hr.
  assert (Hq : 0 <= size / pageSize) by (apply Z.div_pos; lia).
  eexists. split; [reflexivity |].
  assert (Hmul : size / pageSize <= pageSize * (size / pageSize)) by nia.
  destruct (Z.gtb_spec (size mod pageSize) 0) as [Hpos | Hzero];
    (split; [lia | split; intros Heq; nia]).
Qed.

(** X11: for a positive [PageSize] the page count grows with [Size]: of two
    envelopes with non-negative sizes, the one that reports more records
    never gets fewer pages. *)
Theorem GetTotalPagesFromResponse_monotone (res1 res2 : option Response)
    (args : ApiCollectorArgs) (body1 body2 : BitbucketServerPagination.t) :
  UnmarshalResponse res1 BitbucketServerPagination.zero = (body1, None) ->
  UnmarshalResponse res2 BitbucketServerPagination.zero = (body2, None) ->
  GoInt.in_range (BitbucketServerPagination.Size body2) ->
  0 <= BitbucketServerPagination.Size body1 <= BitbucketServerPagination.Size body2 ->
  0 < PageSize args ->
  exists pages1 pages2 : Z,
    GetTotalPagesFromResponse res1 args = Returns (pages1, None) /\
    GetTotalPagesFromResponse res2 args = Returns (pages2, None) /\
    pages1 <= pages2.
Proof.
  intros Hbody1 Hbody2 Hsize2 [Hs1 Hle] Hp.
  assert (Hsize1 : GoInt.in_range (BitbucketServerPagination.Size body1)).
  { revert Hsize2. unfold GoInt.in_range, GoInt.min_int, GoInt.max_int. lia. }
  rewrite (GetTotalPagesFromResponse_nonneg_value res1 args body1 Hbody1 Hsize1 Hs1 Hp).
  rewrite (GetTotalPagesFromResponse_nonneg_value res2 args body2 Hbody2 Hsize2
             ltac:(lia) Hp).
  rewrite <- !ceil_div_remainder by lia.
  eexists. eexists. split; [reflexivity |]. split; [reflexivity |].
  unfold ceil_div. apply Z.div_le_mono; lia.
Qed.

(** X12: a negative [Size] is not rounded up: with a positive [PageSize] the
    quotient is truncated toward zero and the remainder is never positive,
    so the page count is [-((-Size)/PageSize)], never more than zero. *)
Theorem GetTotalPagesFromResponse_negative_size (res : option Response)
    (args : ApiCollectorArgs) (body : BitbucketServerPagination.t) :
  UnmarshalResponse res BitbucketServerPagination.zero = (body, None) ->
  GoInt.in_range (BitbucketServerPagination.Size body) ->
  BitbucketServerPagination.Size body < 0 ->
  0 < PageSize args ->
  exists pages : Z,
    GetTotalPagesFromResponse res args = Returns (pages, None) /\
    pages = - (- BitbucketServerPagination.Size body / PageSize args) /\
    pages <= 0.
Proof.
  intros Hbody Hsize Hs Hp.
  unfold GetTotalPagesFromResponse. rewrite Hbody.
  set (size := BitbucketServerPagination.Size body) in *.
  set (pageSize := PageSize args) in *.
  destruct (Z.eqb_spec pageSize 0) as [Hz | _]; [lia |].
  assert (Hq : 0 <= - size / pageSize) by (apply Z.div_pos; lia).
  assert (Hle : - size / pageSize <= - size).
  { apply Z.div_le_upper_bound; [lia |].
    assert (Hmul : 0 <= (pageSize - 1) * - size) by (apply Z.mul_nonneg_nonneg; lia).
    lia. }
  assert (Hquot : Z.quot size pageSize = - (- size / pageSize)).
  { rewrite <- (Z.opp_involutive size) at 1.
    rewrite Z.quot_opp_l by lia. rewrite Z.quot_div_nonneg by lia. reflexivity. }
  assert (Hrem : Z.rem size pageSize <= 0).
  { apply Z.rem_nonpos; lia. }
  unfold GoInt.in_range, GoInt.min_int, GoInt.max_int in Hsize.
  rewrite Hquot.
  rewrite (wrap_in_range (- (- size / pageSize)))
    by (unfold GoInt.in_range, GoInt.min_int, GoInt.max_int; lia).
  destruct (Z.gtb_spec (Z.rem size pageSize) 0) as [Hpos | _]; [lia |].
  eexists. split; [reflexivity |]. split; [reflexivity | lia].
Qed.
End TotalPagesProperties.

Lemma GetTotalPagesFromResponse_zero_iff_empty_witness :
  let res := Some (Fixtures.response 200 (Fixtures.size_body "0")) in
  let body := BitbucketServerPagination.mk [] 0 0 0 0 "" false in
  Fixtures.unmarshal_envelope res BitbucketServerPagination.zero = (body, None) /\
  GoInt.in_range 0 /\ 0 <= 0 /\ 0 < 100 /\
  exists pages : Z,
    @GetTotalPagesFromResponse Fixtures.unmarshal_envelope res (mkArgs 100) =
      Returns (pages, None) /\
    0 <= pages <= 0 /\ (pages = 0 <-> 0 = 0).
Proof.
  intros res body.
  assert (Hbody : Fixtures.unmarshal_envelope res BitbucketServerPagination.zero
                  = (body, None)) by (vm_compute; reflexivity).
  assert (H0 : GoInt.in_range 0) by (vm_compute; split; discriminate).
  assert (Hs : 0 <= 0) by lia.
  assert (Hp : 0 < 100) by lia.
  split; [exact Hbody | split; [exact H0 | split; [exact Hs | split; [exact Hp |]]]].
  exact (@GetTotalPagesFromResponse_zero_iff_empty Fixtures.unmarshal_envelope
           res (mkArgs 100) body Hbody H0 Hs Hp).
Defined.

Lemma GetTotalPagesFromResponse_monotone_witness :
  let res1 := Some (Fixtures.response 200 (Fixtures.size_body "250")) in
  let res2 := Some (Fixtures.response 200 (Fixtures.size_body "301")) in
  let body1 := BitbucketServerPagination.mk [] 0 250 0 0 "" false in
  let body2 := BitbucketServerPagination.mk [] 0 301 0 0 "" false in
  Fixtures.unmarshal_envelope res1 BitbucketServerPagination.zero = (body1, None) /\
  Fixtures.unmarshal_envelope res2 BitbucketServerPagination.zero = (body2, None) /\
  GoInt.in_range 301 /\ 0 <= 250 <= 301 /\ 0 < 100 /\
  exists pages1 pages2 : Z,
    @GetTotalPagesFromResponse Fixtures.unmarshal_envelope res1 (mkArgs 100) =
      Returns (pages1, None) /\
    @GetTotalPagesFromResponse Fixtures.unmarshal_envelope res2 (mkArgs 100) =
      Returns (pages2, None) /\
    pages1 <= pages2.
Proof.
  intros res1 res2 body1 body2.
  assert (Hbody1 : Fixtures.unmarshal_envelope res1 BitbucketServerPagination.zero
                   = (body1, None)) by (vm_compute; reflexivity).
  assert (Hbody2 : Fixtures.unmarshal_envelope res2 BitbucketServerPagination.zero
                   = (body2, None)) by (vm_compute; reflexivity).
  assert (H301 : GoInt.in_range 301) by (vm_compute; split; discriminate).
  assert (Hle : 0 <= 250 <= 301) by lia.
  assert (Hp : 0 < 100) by lia.
  split; [exact Hbody1 | split; [exact Hbody2 | split; [exact H301 |]]].
  split; [exact Hle | split; [exact Hp |]].
  exact (@GetTotalPagesFromResponse_monotone Fixtures.unmarshal_envelope
           res1 res2 (mkArgs 100) body1 body2 Hbody1 Hbody2 H301 Hle Hp).
Defined.

Lemma GetTotalPagesFromResponse_negative_size_witness :
  let res := Some (Fixtures.response 200 (Fixtures.size_body "-250")) in
  let body := BitbucketServerPagination.mk [] 0 (-250) 0 0 "" false in
  Fixtures.unmarshal_envelope res BitbucketServerPagination.zero = (body, None) /\
  GoInt.in_range (-250) /\ -250 < 0 /\ 0 < 100 /\
  exists pages : Z,
    @GetTotalPagesFromResponse Fixtures.unmarshal_envelope res (mkArgs 100) =
      Returns (pages, None) /\
    pages = -2 /\ pages <= 0.
Proof.
  intros res body.
  assert (Hbody : Fixtures.unmarshal_envelope res BitbucketServerPagination.zero
                  = (body, None)) by (vm_compute; reflexivity).
  assert (Hr : GoInt.in_range (-250)) by (vm_compute; split; discriminate).
  assert (Hs : -250 < 0) by lia.
  assert (Hp : 0 < 100) by lia.
  split; [exact Hbody | split; [exact Hr | split; [exact Hs | split; [exact Hp |]]]].
  exact (@GetTotalPagesFromResponse_negative_size Fixtures.unmarshal_envelope
           res (mkArgs 100) body Hbody Hr Hs Hp).
Defined.

(** ** Seed iterators, continued *)

Lemma Cursor_frame (db db' : gmap string (list (gmap string dal.Value)))
    (clauses : list dal.Clause) (table alias : string) :
  dal.from_of clauses None = Some (table, alias) ->
  db !! table = db' !! table ->
  dal.Cursor db clauses = dal.Cursor db' clauses.
Proof.
  intros Hfrom Hsame. unfold dal.Cursor, dal.matching.
  rewrite Hfrom, Hsame. reflexivity.
Qed.

Lemma Cursor_no_table (db : gmap string (list (gmap string dal.Value)))
    (clauses : list dal.Clause) (table alias : string) :
  dal.from_of clauses None = Some (table, alias) ->
  db !! table = None ->
  exists err : Error, dal.Cursor db clauses = inl err.
Proof.
  intros Hfrom Hnone. unfold dal.Cursor, dal.matching.
  rewrite Hfrom, Hnone.
  destruct (dal.select_of clauses None) as [f |]; [| eauto].
  destruct (dal.resolve alias f); eauto.
Qed.

(** Each iterator runs one cursor, over clauses that do not depend on the
    database and that read the iterator's own table. *)
Lemma seed_source_shape (src : SeedSource) (data : BitbucketTaskData)
    (st : ApiCollectorStateManager) :
  In src seed_sources ->
  exists (clauses : list dal.Clause) (alias : string),
    dal.from_of clauses None = Some (table src, alias) /\
    forall db : gmap string (list (gmap string dal.Value)),
      constructor src (mkContext db data) st =
      match dal.Cursor db clauses with
      | inl err => (None, Some err)
      | inr rows => (Some (mkIterator rows (seed_type src)), None)
      end.
Proof.
  intros Hsrc. destruct st as [inc since].
  destruct Hsrc as [<- | [<- | [<- | []]]];
    destruct inc; try destruct since as [since |];
    (eexists; eexists; split;
     [| intros db;
        cbv [constructor seed_type GetBranchesIterator GetCommitsIterator
             GetPullRequestsIterator NewDalCursorIterator GetDal GetData
             IsIncremental Since app];
        reflexivity]; vm_compute; reflexivity).
Qed.

Lemma seed_source_table (src : SeedSource) (ctx : SubTaskContext)
    (st : ApiCollectorStateManager) (it : DalCursorIterator) :
  In src seed_sources ->
  constructor src ctx st = (Some it, None) ->
  exists rows : list (gmap string dal.Value),
    GetDal ctx !! table src = Some rows.
Proof.
  intros Hsrc Hit. destruct ctx as [db data].
  destruct (seed_source_shape src data st Hsrc) as (clauses & alias & Hfrom & Hshape).
  rewrite Hshape in Hit. simpl.
  destruct (db !! table src) as [rows |] eqn:Htable; [eauto |].
  destruct (Cursor_no_table db clauses _ _ Hfrom Htable) as [err Herr].
  rewrite Herr in Hit. discriminate Hit.
Qed.

Lemma sublist_map_filter {A B : Type} (f : A -> B) (p q : A -> bool) (l : list A) :
  (forall x : A, p x = true -> q x = true) ->
  sublist (map f (List.filter p l)) (map f (List.filter q l)).
Proof.
  intros Hpq. induction l as [| x l IH]; [constructor |].
  cbn [List.filter].
  destruct (p x) eqn:Hp.
  - rewrite (Hpq x Hp). cbn [map]. by apply sublist_skip.
  - destruct (q x); cbn [map]; [by apply sublist_cons | exact IH].
Qed.

Lemma After_not_before (t since1 since2 : Time) :
  not_before since2 since1 = true ->
  time.After t since2 = true -> time.After t since1 = true.
Proof.
  unfold not_before, time.After.
  rewrite negb_true_iff, orb_false_iff, andb_false_iff.
  rewrite !orb_true_iff, !andb_true_iff, !Z.ltb_lt, !Z.eqb_eq.
  rewrite !Z.ltb_ge, Z.eqb_neq. lia.
Qed.

(** X13: an iterator reads its own table only: two databases that hold the
    same rows in that table give the same iterator (or the same error),
    whatever the other tables hold. *)
Theorem iterators_read_own_table (src : SeedSource)
    (db db' : gmap string (list (gmap string dal.Value)))
    (data : BitbucketTaskData) (st : ApiCollectorStateManager) :
  In src seed_sources ->
  db !! table src = db' !! table src ->
  constructor src (mkContext db data) st = constructor src (mkContext db' data) st.
Proof.
  intros Hsrc Hsame.
  destruct (seed_source_shape src data st Hsrc) as (clauses & alias & Hfrom & Hshape).
  rewrite !Hshape. by rewrite (Cursor_frame db db' clauses _ _ Hfrom Hsame).
Qed.

(** X14: whatever the collector state, the seeds an iterator yields are a
    sub-sequence, in the same order, of the seeds the unrestricted run
    yields over the same data. *)
Theorem iterators_restricted_within_full (src : SeedSource) (ctx : SubTaskContext)
    (st full : ApiCollectorStateManager) (it it_full : DalCursorIterator) :
  In src seed_sources ->
  constructor src ctx st = (Some it, None) ->
  constructor src ctx full = (Some it_full, None) ->
  IsIncremental full = false \/ Since full = None ->
  sublist (cursor it) (cursor it_full).
Proof.
  intros Hsrc Hit Hfull Hnone.
  destruct (seed_source_table src ctx st it Hsrc Hit) as [rows Hrows].
  pose proof (seed_source_selects src ctx st rows Hsrc Hrows) as H1.
  pose proof (seed_source_selects src ctx full rows Hsrc Hrows) as H2.
  unfold yields in H1, H2. rewrite Hit in H1. rewrite Hfull in H2.
  injection H1 as ->. injection H2 as ->. cbn [cursor].
  apply sublist_map_filter. intros row Hsel.
  unfold selected in *. apply andb_true_iff in Hsel as [Hscope _].
  rewrite Hscope. unfold restriction_of.
  destruct Hnone as [-> | Hnil]; [reflexivity |].
  rewrite Hnil. by destruct (IsIncremental full).
Qed.

(** X15: raising the watermark never adds seeds: of two incremental runs
    over the same data, the one whose watermark is not before the other's
    yields a sub-sequence of the other's seeds. *)
Theorem iterators_watermark_monotone (src : SeedSource) (ctx : SubTaskContext)
    (since1 since2 : Time) (it1 it2 : DalCursorIterator) :
  In src seed_sources ->
  not_before since2 since1 = true ->
  constructor src ctx (mkState true (Some since1)) = (Some it1, None) ->
  constructor src ctx (mkState true (Some since2)) = (Some it2, None) ->
  sublist (cursor it2) (cursor it1).
Proof.
  intros Hsrc Hle Hit1 Hit2.
  destruct (seed_source_table src ctx _ it1 Hsrc Hit1) as [rows Hrows].
  pose proof (seed_source_selects src ctx (mkState true (Some since1)) rows
                Hsrc Hrows) as H1.
  pose proof (seed_source_selects src ctx (mkState true (Some since2)) rows
                Hsrc Hrows) as H2.
  unfold yields in H1, H2. rewrite Hit1 in H1. rewrite Hit2 in H2.
  injection H1 as ->. injection H2 as ->. cbn [cursor].
  apply sublist_map_filter. intros row.
  unfold selected, restriction_of, updated_after. cbn [IsIncremental Since].
  intros [Hscope Hafter]%andb_true_iff. rewrite Hscope. cbn [andb].
  destruct (row !! "bitbucket_updated_at") as [[| s | n | t] |];
    try discriminate Hafter.
  by apply (After_not_before t since1 since2).
Qed.


Lemma iterators_read_own_table_witness :
  let src := mkSource GetBranchesIterator "_tool_bitbucket_server_branches"
               "branch" BitbucketServerBranchInput in
  let db' : gmap string (list (gmap string dal.Value)) :=
    <["_tool_bitbucket_server_commits" := []]> Fixtures.db in
  let data := mkTaskData (mkParams 1 "P/r") in
  In src seed_sources /\
  Fixtures.db !! table src = db' !! table src /\
  GetBranchesIterator (mkContext Fixtures.db data) (mkState false None) =
  GetBranchesIterator (mkContext db' data) (mkState false None).
Proof.
  intros src db' data.
  assert (Hsrc : In src seed_sources) by (left; reflexivity).
  assert (Hsame : Fixtures.db !! table src = db' !! table src)
    by (vm_compute; reflexivity).
  split; [exact Hsrc | split; [exact Hsame |]].
  exact (iterators_read_own_table src Fixtures.db db' data (mkState false None)
           Hsrc Hsame).
Defined.

Lemma iterators_restricted_within_full_witness :
  let src := mkSource GetBranchesIterator "_tool_bitbucket_server_branches"
               "branch" BitbucketServerBranchInput in
  let it := mkIterator [ {[ "branch" := dal.VString "dev" ]} ]
              BitbucketServerBranchInput in
  let it_full := mkIterator [ {[ "branch" := dal.VString "main" ]};
                              {[ "branch" := dal.VString "dev" ]} ]
                   BitbucketServerBranchInput in
  In src seed_sources /\
  GetBranchesIterator (Fixtures.run 1 "P/r") (mkState true (Some (mkTime 20 0 0))) =
    (Some it, None) /\
  GetBranchesIterator (Fixtures.run 1 "P/r") (mkState false None) =
    (Some it_full, None) /\
  (IsIncremental (mkState false None) = false \/ Since (mkState false None) = None) /\
  sublist (cursor it) (cursor it_full).
Proof.
  intros src it it_full.
  assert (Hsrc : In src seed_sources) by (left; reflexivity).
  assert (Hit : constructor src (Fixtures.run 1 "P/r")
                  (mkState true (Some (mkTime 20 0 0))) = (Some it, None))
    by (vm_compute; reflexivity).
  assert (Hfull : constructor src (Fixtures.run 1 "P/r") (mkState false None)
                  = (Some it_full, None)) by (vm_compute; reflexivity).
  assert (Hnone : IsIncremental (mkState false None) = false
                  \/ Since (mkState false None) = None) by (left; reflexivity).
  split; [exact Hsrc | split; [exact Hit | split; [exact Hfull | split; [exact Hnone |]]]].
  exact (iterators_restricted_within_full src (Fixtures.run 1 "P/r") _ _ it it_full
           Hsrc Hit Hfull Hnone).
Defined.

Lemma iterators_watermark_monotone_witness :
  let src := mkSource GetBranchesIterator "_tool_bitbucket_server_branches"
               "branch" BitbucketServerBranchInput in
  let it1 := mkIterator [ {[ "branch" := dal.VString "main" ]};
                          {[ "branch" := dal.VString "dev" ]} ]
               BitbucketServerBranchInput in
  let it2 := mkIterator [ {[ "branch" := dal.VString "dev" ]} ]
               BitbucketServerBranchInput in
  In src seed_sources /\
  not_before (mkTime 20 0 0) (mkTime 5 0 0) = true /\
  GetBranchesIterator (Fixtures.run 1 "P/r") (mkState true (Some (mkTime 5 0 0))) =
    (Some it1, None) /\
  GetBranchesIterator (Fixtures.run 1 "P/r") (mkState true (Some (mkTime 20 0 0))) =
    (Some it2, None) /\
  sublist (cursor it2) (cursor it1).
Proof.
  intros src it1 it2.
  assert (Hsrc : In src seed_sources) by (left; reflexivity).
  assert (Hle : not_before (mkTime 20 0 0) (mkTime 5 0 0) = true) by reflexivity.
  assert (Hit1 : constructor src (Fixtures.run 1 "P/r")
                   (mkState true (Some (mkTime 5 0 0))) = (Some it1, None))
    by (vm_compute; reflexivity).
  assert (Hit2 : constructor src (Fixtures.run 1 "P/r")
                   (mkState true (Some (mkTime 20 0 0))) = (Some it2, None))
    by (vm_compute; reflexivity).
  split; [exact Hsrc | split; [exact Hle | split; [exact Hit1 | split; [exact Hit2 |]]]].
  exact (iterators_watermark_monotone src (Fixtures.run 1 "P/r") _ _ it1 it2
           Hsrc Hle Hit1 Hit2).
Defined.


(** ** Cursor links, continued *)

Ltac ascii_cases c :=
  let b0 := fresh in let b1 := fresh in let b2 := fresh in let b3 := fresh in
  let b4 := fresh in let b5 := fresh in let b6 := fresh in let b7 := fresh in
  destruct c as [b0 b1 b2 b3 b4 b5 b6 b7];
  destruct b0, b1, b2, b3, b4, b5, b6, b7.

Lemma plain_char_cases (c : ascii) :
  plain_char c = true -> c <> "&"%char /\ c <> ";"%char /\ c <> "%"%char /\ c <> "+"%char.
Proof.
  unfold plain_char. rewrite negb_true_iff, !orb_false_iff.
  intros [[[H1 H2] H3] H4].
  by rewrite <- !Ascii.eqb_neq.
Qed.

Lemma pieces_other (c : ascii) (cur rest : string) :
  c <> "&"%char ->
  url.pieces cur (String c rest) = url.pieces (cur +:+ String c "") rest.
Proof. intros Hc. ascii_cases c; first [reflexivity | by destruct Hc]. Qed.

Lemma pieces_plain_then (cur v rest : string) :
  plain v = true ->
  url.pieces cur (v +:+ "&" +:+ rest) =
  (cur +:+ v) :: match rest with
                 | EmptyString => []
                 | _ => url.pieces "" rest
                 end.
Proof.
  revert cur. induction v as [| c v IH]; intros cur Hplain.
  - rewrite append_empty_r. by destruct rest.
  - cbn [plain] in Hplain. apply andb_true_iff in Hplain as [Hc Hv].
    apply plain_char_cases in Hc as [Hamp _].
    change (String c v +:+ "&" +:+ rest) with (String c (v +:+ "&" +:+ rest)).
    rewrite pieces_other by exact Hamp.
    rewrite IH by exact Hv. by rewrite append_assoc3.
Qed.

Lemma pieces_plain (cur v : string) :
  plain v = true -> url.pieces cur v = [cur +:+ v].
Proof.
  revert cur. induction v as [| c v IH]; intros cur Hplain.
  - by rewrite append_empty_r.
  - cbn [plain] in Hplain. apply andb_true_iff in Hplain as [Hc Hv].
    apply plain_char_cases in Hc as [Hamp _].
    rewrite pieces_other by exact Hamp.
    rewrite IH by exact Hv. by rewrite append_assoc3.
Qed.

Lemma prefix_empty (s : string) : String.prefix "" s = true.
Proof. by destruct s. Qed.

Lemma Cut_cons_ne (c ch : ascii) (s : string) :
  ch <> c ->
  strings.Cut (String c s) (String ch "") =
  let '(before, after, found) := strings.Cut s (String ch "") in
  (String c before, after, found).
Proof.
  intros Hne. cbn [strings.Cut strings.HasPrefix String.prefix].
  by destruct (ascii_dec ch c).
Qed.

Lemma Cut_cons_eq (ch : ascii) (s : string) :
  strings.Cut (String ch s) (String ch "") = ("", s, true).
Proof.
  cbn [strings.Cut strings.HasPrefix String.prefix].
  destruct (ascii_dec ch ch) as [_ | Hne]; [| by destruct Hne].
  by rewrite prefix_empty.
Qed.

Lemma Cut_semicolon_plain (v : string) :
  plain v = true -> strings.Cut v ";" = (v, "", false).
Proof.
  induction v as [| c v IH]; intros Hplain; [reflexivity |].
  cbn [plain] in Hplain. apply andb_true_iff in Hplain as [Hc Hv].
  apply plain_char_cases in Hc as (_ & Hsemi & _).
  rewrite Cut_cons_ne by congruence. by rewrite IH.
Qed.

Lemma QueryUnescape_other (c : ascii) (rest : string) :
  c <> "%"%char -> c <> "+"%char ->
  url.QueryUnescape (String c rest) = String c <$> url.QueryUnescape rest.
Proof.
  intros Hpercent Hplus.
  ascii_cases c; first [reflexivity | by destruct Hpercent | by destruct Hplus].
Qed.

Lemma QueryUnescape_plain (v : string) :
  plain v = true -> url.QueryUnescape v = Some v.
Proof.
  induction v as [| c v IH]; intros Hplain; [reflexivity |].
  cbn [plain] in Hplain. apply andb_true_iff in Hplain as [Hc Hv].
  apply plain_char_cases in Hc as (_ & _ & Hpercent & Hplus).
  rewrite QueryUnescape_other by assumption. by rewrite IH.
Qed.

Lemma parseQuery_step_page (v : string) :
  plain v = true ->
  url.index (url.parseQuery_step ∅ ("page=" +:+ v)) "page" = [v].
Proof.
  intros Hplain. unfold url.parseQuery_step, strings.Contains.
  assert (Hwhole : plain ("page=" +:+ v) = true) by exact Hplain.
  rewrite (Cut_semicolon_plain _ Hwhole). cbn [snd].
  change ("page=" +:+ v) with (String "p" (String "a" (String "g" (String "e"
                                 (String "=" v))))).
  cbn [String.eqb Ascii.eqb Bool.eqb].
  rewrite !Cut_cons_ne by discriminate. rewrite Cut_cons_eq.
  change (url.QueryUnescape "page") with (Some "page").
  rewrite (QueryUnescape_plain v Hplain).
  unfold url.index. by rewrite lookup_insert_eq, lookup_empty.
Qed.

Lemma parseQuery_step_appends (m : gmap string (list string)) (piece : string) :
  exists extra : list string,
    url.index (url.parseQuery_step m piece) "page" =
    (url.index m "page" ++ extra)%list.
Proof.
  unfold url.parseQuery_step.
  destruct (strings.Contains piece ";"); [exists []; by rewrite app_nil_r |].
  destruct (String.eqb piece ""); [exists []; by rewrite app_nil_r |].
  destruct (strings.Cut piece "=") as [[key value] found].
  destruct (url.QueryUnescape key) as [key' |]; [| exists []; by rewrite app_nil_r].
  destruct (url.QueryUnescape value) as [value' |];
    [| exists []; by rewrite app_nil_r].
  unfold url.index at 1. rewrite lookup_insert.
  case_decide as Hkey.
  - subst key'. by exists [value'].
  - exists []. by rewrite app_nil_r.
Qed.

Lemma parseQuery_keeps_first (ps : list string) (m : gmap string (list string))
    (v : string) (more : list string) :
  url.index m "page" = v :: more ->
  exists more' : list string,
    url.index (fold_left url.parseQuery_step ps m) "page" = v :: more'.
Proof.
  revert m more. induction ps as [| piece ps IH]; intros m more Hm; [eauto |].
  cbn [fold_left].
  destruct (parseQuery_step_appends m piece) as [extra Hextra].
  rewrite Hm in Hextra. exact (IH _ _ Hextra).
Qed.

Lemma Query_first_page (u : net_url.URL) (v rest : string) :
  plain v = true ->
  net_url.RawQuery u = "page=" +:+ v \/
  net_url.RawQuery u = "page=" +:+ v +:+ "&" +:+ rest ->
  exists more : list string, url.index (url.Query u) "page" = v :: more.
Proof.
  intros Hplain Hquery. unfold url.Query.
  assert (Hwhole : plain ("page=" +:+ v) = true) by exact Hplain.
  destruct Hquery as [-> | ->].
  - change ("page=" +:+ v) with (String "p" ("age=" +:+ v)) at 1. cbv iota.
    change (String "p" ("age=" +:+ v)) with ("page=" +:+ v).
    rewrite (pieces_plain "" _ Hwhole). cbn [fold_left String.append].
    exists []. by apply parseQuery_step_page.
  - change ("page=" +:+ v +:+ "&" +:+ rest)
      with (String "p" ("age=" +:+ v +:+ "&" +:+ rest)) at 1. cbv iota.
    change (String "p" ("age=" +:+ v +:+ "&" +:+ rest))
      with ("page=" +:+ v +:+ "&" +:+ rest).
    rewrite <- (append_assoc3 "page=" v ("&" +:+ rest)).
    rewrite (pieces_plain_then "" _ rest Hwhole).
    cbn [fold_left]. change ("" +:+ ("page=" +:+ v)) with ("page=" +:+ v).
    apply (parseQuery_keeps_first _ _ v []).
    by apply parseQuery_step_page.
Qed.

Section FirstPage.
Context `{!JsonUnmarshal NextMessage.t} `{!net_url.Parser}.

(** X17: when the query of the [Next] link starts with [page=v], where [v]
    has none of the characters ampersand, semicolon, percent and plus, the
    token is [v] verbatim, whatever follows the first ampersand: later
    [page] values, other keys and broken escapes do not change it. *)
Theorem GetNextPageCustomData_first_page_wins (reqData : RequestData.t)
    (res : Response) (data : string) (rawMessages : NextMessage.t)
    (u : net_url.URL) (v rest : string) :
  Body res = ReadOk data ->
  json_Unmarshal data NextMessage.zero = (rawMessages, None) ->
  NextMessage.Next rawMessages <> "" ->
  net_url.Parse (NextMessage.Next rawMessages) = inr u ->
  plain v = true ->
  net_url.RawQuery u = "page=" +:+ v \/
  net_url.RawQuery u = "page=" +:+ v +:+ "&" +:+ rest ->
  GetNextPageCustomData reqData (Some res) = Returns (Some v, None).
Proof.
  intros Hbody Hjson Hne Hparse Hplain Hquery.
  rewrite (GetNextPageCustomData_decoded reqData res data rawMessages Hbody Hjson).
  destruct (String.eqb_spec (NextMessage.Next rawMessages) "") as [Heq | _];
    [contradiction |].
  rewrite Hparse.
  destruct (Query_first_page u v rest Hplain Hquery) as [more ->].
  reflexivity.
Qed.
End FirstPage.

Lemma GetNextPageCustomData_first_page_wins_witness :
  let next := "https://host/path?page=12&page=3&a%2&x;y" in
  let res := Fixtures.response 200 (Fixtures.next_body next) in
  let u := net_url.mkURL "https" "" "host" "/path" "page=12&page=3&a%2&x;y" "" in
  Body res = ReadOk (Fixtures.next_body next) /\
  Fixtures.unmarshal_next (Fixtures.next_body next) NextMessage.zero =
    (NextMessage.mk next, None) /\
  NextMessage.Next (NextMessage.mk next) <> "" /\
  Fixtures.parse_url next = inr u /\
  plain "12" = true /\
  net_url.RawQuery u = "page=" +:+ "12" +:+ "&" +:+ "page=3&a%2&x;y" /\
  @GetNextPageCustomData Fixtures.unmarshal_next Fixtures.parse_url
    Fixtures.page3 (Some res) = Returns (Some "12", None).
Proof.
  intros next res u.
  assert (Hbody : Body res = ReadOk (Fixtures.next_body next)) by reflexivity.
  assert (Hjson : Fixtures.unmarshal_next (Fixtures.next_body next) NextMessage.zero
                  = (NextMessage.mk next, None)) by (vm_compute; reflexivity).
  assert (Hne : NextMessage.Next (NextMessage.mk next) <> "") by discriminate.
  assert (Hparse : Fixtures.parse_url next = inr u) by (vm_compute; reflexivity).
  assert (Hplain : plain "12" = true) by reflexivity.
  assert (Hquery : net_url.RawQuery u
                   = "page=" +:+ "12" +:+ "&" +:+ "page=3&a%2&x;y") by reflexivity.
  split; [exact Hbody | split; [exact Hjson | split; [exact Hne |]]].
  split; [exact Hparse | split; [exact Hplain | split; [exact Hquery |]]].
  exact (@GetNextPageCustomData_first_page_wins
           Fixtures.unmarshal_next Fixtures.parse_url
           Fixtures.page3 res _ _ u "12" "page=3&a%2&x;y"
           Hbody Hjson Hne Hparse Hplain (or_intror Hquery)).
Defined.

Section NextPageResults.
Context `{!JsonUnmarshal NextMessage.t} `{!net_url.Parser}.

(** X18: a result of [GetNextPageCustomData] is of one of three kinds only:
    a token with a nil error, a nil value with an error that is no signal,
    or the empty token with the end-of-collection signal.  A nil error
    never comes with a nil value, and a failure never with a token. *)
Theorem GetNextPageCustomData_result_kinds (reqData : RequestData.t)
    (res : option Response) (value : option string) (err : option Error) :
  GetNextPageCustomData reqData res = Returns (value, err) ->
  (exists token : string, value = Some token /\ err = None) \/
  (exists e : Error, value = None /\ err = Some e /\ is_signal e = false) \/
  (value = Some "" /\ err = Some ErrFinishCollect).
Proof.
  unfold GetNextPageCustomData.
  destruct (decodeResponse_cases res NextMessage.zero)
    as [[msg ->] | [(m & e & -> & Hty) | (m & r & data & -> & _)]]; simpl.
  - discriminate.
  - intros [= <- <-]. right; left. exists e. repeat split. by destruct e.
  - destruct (String.eqb (NextMessage.Next m) "").
    + intros [= <- <-]. by right; right.
    + destruct (net_url.Parse (NextMessage.Next m)) as [cause | u].
      * intros [= <- <-]. right; left. by exists (Converted cause).
      * destruct (url.index (url.Query u) "page") as [| page more];
          [discriminate |].
        intros [= <- <-]. left. by exists page.
Qed.
End NextPageResults.

Lemma GetNextPageCustomData_result_kinds_witness :
  let res := Some (Fixtures.response 200 (Fixtures.next_body ":path?page=2")) in
  @GetNextPageCustomData Fixtures.unmarshal_next Fixtures.parse_url
    Fixtures.page3 res =
    Returns (None, Some (Converted "missing protocol scheme")) /\
  ((exists token : string,
       None = Some token /\ Some (Converted "missing protocol scheme") = None) \/
   (exists e : Error,
       None = (None : option string) /\
       Some (Converted "missing protocol scheme") = Some e /\
       is_signal e = false) \/
   (None = Some "" /\
    Some (Converted "missing protocol scheme") = Some ErrFinishCollect)).
Proof.
  intros res.
  assert (H : @GetNextPageCustomData Fixtures.unmarshal_next Fixtures.parse_url
                Fixtures.page3 res =
              Returns (None, Some (Converted "missing protocol scheme")))
    by (vm_compute; reflexivity).
  split; [exact H |].
  exact (@GetNextPageCustomData_result_kinds
           Fixtures.unmarshal_next Fixtures.parse_url Fixtures.page3 res _ _ H).
Defined.
